(** * scan_nmap_discord.py: parsing, snapshot diffing, notification and
      persistence

    A shallow embedding of [scan_nmap_discord.py].  Text is a [string]
    whose characters are the code points below 256; the interpreter's
    treatment of white space, line boundaries and decimal digits is
    written out for that range.  The file system, the scanner process,
    the webhook endpoint and the clock are outside the program: their
    behaviour is a parameter ([env]) and the part of the machine the
    program reads and writes is an explicit state ([world]). *)

From Stdlib Require Import ZArith Lia Bool List Ascii String Sorted.
From stdpp Require Import base option list gmap sets strings.

Local Open Scope string_scope.
Local Open Scope Z_scope.
Local Open Scope list_scope.

(** ** Python text primitives *)

Module Py.

(** [str.isspace] for one character, code points below 256. *)
Definition is_space (c : ascii) : bool :=
  let n := N_of_ascii c in
  ((9 <=? n) && (n <=? 13) || (28 <=? n) && (n <=? 32)
   || (n =? 133) || (n =? 160))%N.

(** The line boundaries of [str.splitlines], code points below 256. *)
Definition is_linebreak (c : ascii) : bool :=
  let n := N_of_ascii c in
  ((10 <=? n) && (n <=? 13) || (28 <=? n) && (n <=? 30) || (n =? 133))%N.

Definition is_empty (s : string) : bool :=
  match s with EmptyString => true | String _ _ => false end.

(** [s.startswith(p)] *)
Fixpoint startswith (p s : string) : bool :=
  match p, s with
  | EmptyString, _ => true
  | String a p', String b s' => Ascii.eqb a b && startswith p' s'
  | String _ _, EmptyString => false
  end.

(** [sub in s] *)
Fixpoint contains (sub s : string) : bool :=
  startswith sub s
  || match s with
     | EmptyString => false
     | String _ s' => contains sub s'
     end.

(** [s.splitlines()]: a carriage return followed by a line feed is one
    boundary, and a final boundary opens no further line. *)
Fixpoint splitlines (s : string) : list string :=
  match s with
  | EmptyString => []
  | String c s' =>
      if is_linebreak c then
        EmptyString ::
          match s' with
          | String d s'' =>
              if Ascii.eqb c "013" && Ascii.eqb d "010"
              then splitlines s'' else splitlines s'
          | EmptyString => []
          end
      else
        match splitlines s' with
        | [] => [String c EmptyString]
        | l :: ls => String c l :: ls
        end
  end.

(** [s.split(sep)] for a non-empty separator: matches are taken left to
    right and do not overlap.  [skip] counts the characters of a matched
    separator still to be passed over; the result is the piece being
    read and the pieces after it. *)
Fixpoint split_from (sep : string) (skip : nat) (s : string)
  : string * list string :=
  match s with
  | EmptyString => (EmptyString, [])
  | String c s' =>
      match skip with
      | S k => split_from sep k s'
      | O =>
          if startswith sep s then
            let '(p, ps) := split_from sep (Nat.pred (String.length sep)) s' in
            (EmptyString, p :: ps)
          else
            let '(p, ps) := split_from sep O s' in
            (String c p, ps)
      end
  end.

Definition split (sep s : string) : list string :=
  let '(p, ps) := split_from sep O s in p :: ps.

(** [s.split()]: maximal runs of characters that are not white space.
    The auxiliary result is the run at the head of the text (empty when
    the text starts with white space or is empty) and the runs after it. *)
Definition push_token (t : string) (ts : list string) : list string :=
  if is_empty t then ts else t :: ts.

Fixpoint split_ws_from (s : string) : string * list string :=
  match s with
  | EmptyString => (EmptyString, [])
  | String c s' =>
      let '(t, ts) := split_ws_from s' in
      if is_space c then (EmptyString, push_token t ts)
      else (String c t, ts)
  end.

Definition split_ws (s : string) : list string :=
  let '(t, ts) := split_ws_from s in push_token t ts.

(** [s.strip()] *)
Fixpoint lstrip (s : string) : string :=
  match s with
  | EmptyString => EmptyString
  | String c s' => if is_space c then lstrip s' else s
  end.

Fixpoint rstrip (s : string) : string :=
  match s with
  | EmptyString => EmptyString
  | String c s' =>
      let r := rstrip s' in
      if is_space c && is_empty r then EmptyString else String c r
  end.

Definition strip (s : string) : string := rstrip (lstrip s).

(** [int(s)] in base ten.  The white space [int] drops around the
    literal is narrower than that of [str.strip]: of the code points
    below 127 only tab, line feed, vertical tab, form feed, carriage
    return and space (the separators 28 to 31 are kept and make the
    literal invalid), and above them the two that [str.isspace] accepts,
    133 and 160.  One sign may lead, and single underscores may separate
    digits.  A literal of more than [int_max_str_digits] digits is
    refused (the interpreter's default limit). *)
Definition is_int_space (c : ascii) : bool :=
  let n := N_of_ascii c in
  ((9 <=? n) && (n <=? 13) || (n =? 32) || (n =? 133) || (n =? 160))%N.

Fixpoint int_lstrip (s : string) : string :=
  match s with
  | EmptyString => EmptyString
  | String c s' => if is_int_space c then int_lstrip s' else s
  end.

Fixpoint int_rstrip (s : string) : string :=
  match s with
  | EmptyString => EmptyString
  | String c s' =>
      let r := int_rstrip s' in
      if is_int_space c && is_empty r then EmptyString else String c r
  end.

Definition int_max_str_digits : nat := 4300.

Definition digit_of (c : ascii) : option Z :=
  let n := N_of_ascii c in
  if ((48 <=? n) && (n <=? 57))%N then Some (Z.of_N n - 48) else None.

(** [digits acc n s]: [s] continues a literal whose value so far is [acc]
    over [n] digits; the previous character was a digit. *)
Fixpoint digits (acc : Z) (n : nat) (s : string) : option (Z * nat) :=
  match s with
  | EmptyString => Some (acc, n)
  | String c s' =>
      match digit_of c with
      | Some d => digits (10 * acc + d) (S n) s'
      | None =>
          if Ascii.eqb c "_" then
            match s' with
            | String c' s'' =>
                match digit_of c' with
                | Some d => digits (10 * acc + d) (S n) s''
                | None => None
                end
            | EmptyString => None
            end
          else None
      end
  end.

Definition unsigned (s : string) : option Z :=
  match s with
  | EmptyString => None
  | String c s' =>
      match digit_of c with
      | Some d =>
          match digits d 1 s' with
          | Some (v, n) =>
              if (int_max_str_digits <? n)%nat then None else Some v
          | None => None
          end
      | None => None
      end
  end.

Definition int (s : string) : option Z :=
  match int_rstrip (int_lstrip s) with
  | String "+" s' => unsigned s'
  | String "-" s' => Z.opp <$> unsigned s'
  | s' => unsigned s'
  end.

End Py.

(** ** Exceptions and results *)

Inductive exn :=
| ValueError | IndexError | KeyError | TypeError
| OSError | TimeoutExpired | RequestException.

Inductive result (A : Type) :=
| Ok (a : A)
| Raise (e : exn).
Arguments Ok {A} a.
Arguments Raise {A} e.

Definition rbind {A B} (r : result A) (k : A -> result B) : result B :=
  match r with
  | Ok a => k a
  | Raise e => Raise e
  end.

Notation "x <~ r ;; k" := (rbind r (fun x => k))
  (at level 60, r at next level, right associativity).

(** A [for] loop whose body updates the loop state or raises. *)
Fixpoint for_each {A S} (xs : list A) (body : A -> S -> result S) (s : S)
  : result S :=
  match xs with
  | [] => Ok s
  | x :: xs' => s' <~ body x s ;; for_each xs' body s'
  end.

(** [l[i]] *)
Definition index {A} (l : list A) (i : nat) : result A :=
  match nth_error l i with
  | Some a => Ok a
  | None => Raise IndexError
  end.

(** [int(s)] as an expression *)
Definition int_of (s : string) : result Z :=
  match Py.int s with
  | Some n => Ok n
  | None => Raise ValueError
  end.

(** [sorted(set(l))] for a total order given by [cmp]. *)
Section SortedSet.
Context {A : Type} (cmp : A -> A -> comparison).

Fixpoint insert_sorted (x : A) (l : list A) : list A :=
  match l with
  | [] => [x]
  | y :: l' =>
      match cmp x y with
      | Lt => x :: l
      | Eq => l
      | Gt => y :: insert_sorted x l'
      end
  end.

Definition sorted_set (l : list A) : list A :=
  fold_right insert_sorted [] l.
End SortedSet.

(** ** The observation parser *)

Definition parse_ports (out : string) : result (list Z) :=
  ports <~ for_each (Py.splitlines out) (fun line ports =>
      if Py.contains "Ports:" line then
        after <~ index (Py.split "Ports:" line) 1 ;;
        let parts := Py.strip after in
        for_each (Py.split "," parts) (fun p ports =>
          let segs := Py.split "/" (Py.strip p) in
          match segs with
          | seg0 :: seg1 :: _ =>
              if String.eqb seg1 "open" then
                n <~ int_of seg0 ;; Ok (ports ++ [n])
              else Ok ports
          | _ => Ok ports
          end) ports
      else Ok ports) [] ;;
  Ok (sorted_set Z.compare ports).

Definition parse_hosts (out : string) : result (list string) :=
  hosts <~ for_each (Py.splitlines out) (fun line hosts =>
      if Py.startswith "Host:" line && Py.contains "Status: Up" line then
        let parts := Py.split_ws line in
        ip <~ index parts 1 ;;
        Ok (hosts ++ [ip])
      else Ok hosts) [] ;;
  Ok (sorted_set String.compare hosts).

(** ** Values read back by [json.load]

    Numbers are integers (a number written with a fraction or an exponent
    is not represented).  A [JDict] lists the items of the loaded
    dictionary in insertion order, keys pairwise distinct. *)

#[local] Unset Elimination Schemes.
Inductive json :=
| JNull
| JBool (b : bool)
| JInt (n : Z)
| JStr (s : string)
| JList (l : list json)
| JDict (kv : list (string * json)).
#[local] Set Elimination Schemes.

(** [bool(v)] *)
Definition truthy (v : json) : bool :=
  match v with
  | JNull => false
  | JBool b => b
  | JInt n => negb (n =? 0)
  | JStr s => negb (Py.is_empty s)
  | JList l => match l with [] => false | _ => true end
  | JDict kv => match kv with [] => false | _ => true end
  end.

(** [d[key]] for a string key *)
Definition getitem (d : json) (key : string) : result json :=
  match d with
  | JDict kv =>
      match find (fun '(k, _) => String.eqb k key) kv with
      | Some (_, v) => Ok v
      | None => Raise KeyError
      end
  | _ => Raise TypeError
  end.

(** The elements the program observes (port numbers, host addresses) next
    to the values it reads back from a snapshot file: how an element is
    written ([to_json]), when an element equals a loaded value ([py_eq],
    Python's [==]) and what [p in s] does for a loaded string [s]. *)
Class Element (T : Type) := {
  to_json : T -> json;
  py_eq : T -> json -> bool;
  in_text : T -> string -> result bool
}.

Definition port_eq (p : Z) (v : json) : bool :=
  match v with
  | JInt n => p =? n
  | JBool b => p =? (if b then 1 else 0)
  | _ => false
  end.

Definition host_eq (p : string) (v : json) : bool :=
  match v with
  | JStr s => String.eqb p s
  | _ => false
  end.

#[export] Instance port_element : Element Z := {|
  to_json := JInt;
  py_eq := port_eq;
  in_text _ _ := Raise TypeError
|}.

#[export] Instance host_element : Element string := {|
  to_json := JStr;
  py_eq := host_eq;
  in_text p s := Ok (Py.contains p s)
|}.

Section Containers.
Context {T : Type} `{Element T}.

(** [p in c] for a loaded value [c] *)
Definition py_in (p : T) (c : json) : result bool :=
  match c with
  | JList l => Ok (existsb (py_eq p) l)
  | JDict kv => Ok (existsb (fun '(k, _) => py_eq p (JStr k)) kv)
  | JStr s => in_text p s
  | _ => Raise TypeError
  end.

(** [v in l] for a loaded value [v] and a list of elements *)
Definition member (v : json) (l : list T) : bool :=
  existsb (fun c => py_eq c v) l.

(** the items [for v in c] runs over *)
Definition py_iter (c : json) : result (list json) :=
  match c with
  | JList l => Ok l
  | JDict kv => Ok (map (fun '(k, _) => JStr k) kv)
  | JStr s =>
      Ok (map (fun ch => JStr (String ch EmptyString)) (list_ascii_of_string s))
  | _ => Raise TypeError
  end.

(** [[x for x in l if cond(x)]] with a condition that may raise *)
Fixpoint comprehension {A} (cond : A -> result bool) (l : list A)
  : result (list A) :=
  match l with
  | [] => Ok []
  | x :: l' =>
      b <~ cond x ;;
      r <~ comprehension cond l' ;;
      Ok (if b then x :: r else r)
  end.

(** [[p for p in current if p not in prev]] *)
Definition not_in_prev (prev : json) (current : list T) : result (list T) :=
  comprehension (fun p => b <~ py_in p prev ;; Ok (negb b)) current.

(** [[p for p in prev if p not in current]] *)
Definition not_in_current (prev : json) (current : list T)
  : result (list json) :=
  items <~ py_iter prev ;;
  Ok (filter (fun v => negb (member v current)) items).
End Containers.

(** ** The machine around the program *)

(** A snapshot file: whether it can be opened for reading, and the value
    [json.load] finds in it ([None] when the text is not JSON). *)
Record file := File { readable : bool; text : option json }.

(** What writing a file does: the text is written; [open] fails and the
    file is as before; or the write fails after [open] has emptied the
    file, leaving text that is not JSON. *)
Inductive write_outcome := Written | OpenFails | DumpFails.

(** A call [send_discord(title, description, fields, color)]: which of
    the five alerts of [main] it is and the values its description and
    fields are rendered from. *)
Inductive alert :=
| FirstScanPorts (target : string) (current : list Z)
| NewPorts (target : string) (new current : list Z)
| PortsClosed (target : string) (closed : list json) (current : list Z)
| NewHosts (subnet : string) (new current : list string)
| HostsDisappeared (subnet : string) (gone : list json) (current : list string).

Definition title (a : alert) : string :=
  match a with
  | FirstScanPorts _ _ => "🔰 First scan (ports)"
  | NewPorts _ _ _ => "⚠️ New ports detected"
  | PortsClosed _ _ _ => "🔒 Ports closed"
  | NewHosts _ _ _ => "🆕 New hosts detected"
  | HostsDisappeared _ _ _ => "👻 Hosts disappeared"
  end.

Definition color (a : alert) : Z :=
  match a with
  | FirstScanPorts _ _ => 5814783
  | NewPorts _ _ _ => 15158332
  | PortsClosed _ _ _ => 16776960
  | NewHosts _ _ _ => 3447003
  | HostsDisappeared _ _ _ => 10181046
  end.

Inductive level := INFO | ERROR.

Inductive log_entry :=
| Running (cmd : list string)
| WebhookNotSet
| WebhookStatus (status : Z)
| WebhookError (e : exn)
| ScanCompleted (ports hosts : nat).

Definition level_of (l : log_entry) : level :=
  match l with
  | WebhookNotSet | WebhookError _ => ERROR
  | _ => INFO
  end.

(** The state the program acts on.  [fs] holds the files the program
    opens itself, the snapshot files read by [load_json] and written by
    [save_json].  [log] is the sequence of records handed to [logging],
    oldest first: the handlers set up at import append each of them to
    the file [LOG_FILE] and write it to the stream, so [log] is what the
    run adds to the log file, a file that is not one of the paths of
    [fs].  [calls] is the history of [send_discord] invocations and
    [posts] the requests handed to [requests.post], both oldest first;
    [ticks] counts the readings of the clock. *)
Record world := World {
  fs : gmap string file;
  log : list log_entry;
  calls : list alert;
  posts : list alert;
  ticks : nat
}.

(** Configuration and the behaviour of the collaborators for one run. *)
Record env := Env {
  WEBHOOK : option string;
  NMAPPATH : string;
  PREV_PORTS_FILE : string;
  PREV_HOSTS_FILE : string;
  TARGET : string;
  SUBNET : string;
  (** [subprocess.run(cmd, timeout=t)]: the captured standard output, or
      the exception raised *)
  subprocess_run : list string -> Z -> result string;
  (** the [n]-th [requests.post] of the run: the status code of the
      response, or the exception raised *)
  requests_post : nat -> alert -> result Z;
  (** writing the file at a path *)
  storage : string -> write_outcome;
  (** [int(time.time())] at the [n]-th reading *)
  time_time : nat -> Z
}.

(** ** Computations: state passing with exceptions *)

Definition M (A : Type) : Type := world -> world * result A.

Definition ret {A} (a : A) : M A := fun w => (w, Ok a).

Definition bind {A B} (m : M A) (k : A -> M B) : M B :=
  fun w =>
    match m w with
    | (w', Ok a) => k a w'
    | (w', Raise e) => (w', Raise e)
    end.

Notation "x <- m ;; k" := (bind m (fun x => k))
  (at level 60, m at next level, right associativity).

Definition lift {A} (r : result A) : M A := fun w => (w, r).

(** [try: body except Exception: handler] *)
Definition try_except {A} (body : M A) (handler : exn -> M A) : M A :=
  fun w =>
    match body w with
    | (w', Ok a) => (w', Ok a)
    | (w', Raise e) => handler e w'
    end.

Definition when (b : bool) (m : M unit) : M unit :=
  if b then m else ret tt.

(** [logging.info(...)] and [logging.error(...)]: one more record for the
    handlers, that is one more line of the log file and of the stream. *)
Definition logging (l : log_entry) : M unit :=
  fun w => (World (fs w) (log w ++ [l]) (calls w) (posts w) (ticks w), Ok tt).

Definition nonempty {A} (l : list A) : bool :=
  match l with [] => false | _ => true end.

Section Program.
Context (E : env).

(** *** Scanner helpers *)

Definition ports_cmd (target : string) : list string :=
  [NMAPPATH E; "-p-"; "-sV"; "-Pn"; "-oG"; "-"; target].

Definition hosts_cmd (subnet : string) : list string :=
  [NMAPPATH E; "-sn"; "-oG"; "-"; subnet].

Definition run_nmap_ports (target : string) (timeout : Z) : M string :=
  let cmd := ports_cmd target in
  _ <- logging (Running cmd) ;;
  lift (subprocess_run E cmd timeout).

Definition run_nmap_hosts (subnet : string) (timeout : Z) : M string :=
  let cmd := hosts_cmd subnet in
  _ <- logging (Running cmd) ;;
  lift (subprocess_run E cmd timeout).

(** *** File helpers *)

(** [os.path.exists(path)] *)
Definition os_path_exists (path : string) : M bool :=
  fun w => (w, Ok (bool_decide (is_Some (fs w !! path)))).

(** [json.load(open(path, "r"))] *)
Definition json_load_open (path : string) : M json :=
  fun w =>
    match fs w !! path with
    | Some f =>
        if readable f then
          match text f with
          | Some v => (w, Ok v)
          | None => (w, Raise ValueError)
          end
        else (w, Raise OSError)
    | None => (w, Raise OSError)
    end.

Definition load_json (path : string) (default : json) : M json :=
  found <- os_path_exists path ;;
  if found then
    try_except (json_load_open path) (fun _ => ret default)
  else ret default.

(** The file at [path] after [open(path, "w")] and a write that left the
    text [t]: a file that was there keeps its permission, a new one can
    be read. *)
Definition put_file (path : string) (t : option json) (w : world) : world :=
  let r := match fs w !! path with Some f => readable f | None => true end in
  World (<[path := File r t]> (fs w)) (log w) (calls w) (posts w) (ticks w).

(** [with open(path, "w") as f: json.dump(data, f, indent=2)] *)
Definition save_json (data : json) (path : string) : M unit :=
  fun w =>
    match storage E path with
    | Written => (put_file path (Some data) w, Ok tt)
    | OpenFails => (w, Raise OSError)
    | DumpFails => (put_file path None w, Raise OSError)
    end.

(** [int(time.time())] *)
Definition time_now : M Z :=
  fun w =>
    (World (fs w) (log w) (calls w) (posts w) (S (ticks w)),
     Ok (time_time E (ticks w))).

(** *** Discord alert *)

(** [not WEBHOOK] *)
Definition webhook_unset : bool :=
  match WEBHOOK E with
  | Some url => Py.is_empty url
  | None => true
  end.

(** Entering [send_discord]: the call is recorded. *)
Definition called (a : alert) : M unit :=
  fun w => (World (fs w) (log w) (calls w ++ [a]) (posts w) (ticks w), Ok tt).

(** [requests.post(WEBHOOK, json=payload, timeout=10)] *)
Definition post (a : alert) : M Z :=
  fun w =>
    (World (fs w) (log w) (calls w) (posts w ++ [a]) (ticks w),
     requests_post E (length (posts w)) a).

Definition send_discord (a : alert) : M unit :=
  _ <- called a ;;
  if webhook_unset then logging WebhookNotSet
  else
    try_except
      (status <- post a ;; logging (WebhookStatus status))
      (fun e => logging (WebhookError e)).

(** *** Main logic *)

(** [{key: elements, "ts": ts}] *)
Definition snapshot (key : string) (elements : json) (ts : Z) : json :=
  JDict [(key, elements); ("ts", JInt ts)].

(** [load_json(path, {key: []})[key]] *)
Definition previous (path key : string) : M json :=
  data <- load_json path (JDict [(key, JList [])]) ;;
  lift (getitem data key).

(** The alerts of the port cycle (the [if not prev_ports ... else ...]
    block). *)
Definition ports_alerts (prev_ports : json) (current_ports new_ports : list Z)
    (closed_ports : list json) : M unit :=
  if negb (truthy prev_ports) then
    send_discord (FirstScanPorts (TARGET E) current_ports)
  else
    _ <- when (nonempty new_ports)
           (send_discord (NewPorts (TARGET E) new_ports current_ports)) ;;
    when (nonempty closed_ports)
      (send_discord (PortsClosed (TARGET E) closed_ports current_ports)).

(** The alerts of the host cycle (the two [if] statements). *)
Definition hosts_alerts (current_hosts new_hosts : list string)
    (disappeared_hosts : list json) : M unit :=
  _ <- when (nonempty new_hosts)
         (send_discord (NewHosts (SUBNET E) new_hosts current_hosts)) ;;
  when (nonempty disappeared_hosts)
    (send_discord
       (HostsDisappeared (SUBNET E) disappeared_hosts current_hosts)).

(** Part 1 of [main] up to the alerts: scan, parse, load, compare,
    notify. *)
Definition ports_detect : M (list Z) :=
  out_ports <- run_nmap_ports (TARGET E) 300 ;;
  current_ports <- lift (parse_ports out_ports) ;;
  prev_ports <- previous (PREV_PORTS_FILE E) "ports" ;;
  new_ports <- lift (not_in_prev prev_ports current_ports) ;;
  closed_ports <- lift (not_in_current prev_ports current_ports) ;;
  _ <- ports_alerts prev_ports current_ports new_ports closed_ports ;;
  ret current_ports.

(** Part 1 of [main]: the above, then [save_json]. *)
Definition ports_cycle : M (list Z) :=
  current_ports <- ports_detect ;;
  ts <- time_now ;;
  _ <- save_json (snapshot "ports" (JList (map JInt current_ports)) ts)
         (PREV_PORTS_FILE E) ;;
  ret current_ports.

(** Part 2 of [main] up to the alerts. *)
Definition hosts_detect : M (list string) :=
  out_hosts <- run_nmap_hosts (SUBNET E) 120 ;;
  current_hosts <- lift (parse_hosts out_hosts) ;;
  prev_hosts <- previous (PREV_HOSTS_FILE E) "hosts" ;;
  new_hosts <- lift (not_in_prev prev_hosts current_hosts) ;;
  disappeared_hosts <- lift (not_in_current prev_hosts current_hosts) ;;
  _ <- hosts_alerts current_hosts new_hosts disappeared_hosts ;;
  ret current_hosts.

(** Part 2 of [main]: the above, then [save_json]. *)
Definition hosts_cycle : M (list string) :=
  current_hosts <- hosts_detect ;;
  ts <- time_now ;;
  _ <- save_json (snapshot "hosts" (JList (map JStr current_hosts)) ts)
         (PREV_HOSTS_FILE E) ;;
  ret current_hosts.

Definition main : M unit :=
  current_ports <- ports_cycle ;;
  current_hosts <- hosts_cycle ;;
  logging (ScanCompleted (length current_ports) (length current_hosts)).
End Program.

(** ** Vocabulary of the specification *)

(** The three events of the specification and the alert each one is. *)
Inductive event_kind := FirstObservation | Added | Removed.

#[export] Instance event_kind_eq_dec : EqDecision event_kind.
Proof. solve_decision. Defined.

Definition kind_of (a : alert) : event_kind :=
  match a with
  | FirstScanPorts _ _ => FirstObservation
  | NewPorts _ _ _ | NewHosts _ _ _ => Added
  | PortsClosed _ _ _ | HostsDisappeared _ _ _ => Removed
  end.

Definition count_kind (k : event_kind) (cs : list alert) : nat :=
  length (filter (fun a => kind_of a = k) cs).

(** What [load_json] hands back for a file and a default. *)
Definition stored (o : option file) (default : json) : json :=
  match o with
  | Some (File true (Some v)) => v
  | _ => default
  end.

(** A record that is absent, cannot be read, or is not JSON. *)
Definition unusable (o : option file) : bool :=
  match o with
  | Some (File true (Some _)) => false
  | _ => true
  end.

(** The world after one log entry, after one [send_discord], after a
    sequence of them, after a reading of the clock. *)
Definition logged (l : log_entry) (w : world) : world :=
  World (fs w) (log w ++ [l]) (calls w) (posts w) (ticks w).

Definition sent (E : env) (a : alert) (w : world) : world :=
  if webhook_unset E then
    World (fs w) (log w ++ [WebhookNotSet]) (calls w ++ [a]) (posts w) (ticks w)
  else
    World (fs w)
      (log w ++ [match requests_post E (length (posts w)) a with
                 | Ok status => WebhookStatus status
                 | Raise e => WebhookError e
                 end])
      (calls w ++ [a]) (posts w ++ [a]) (ticks w).

Definition sent_all (E : env) (l : list alert) (w : world) : world :=
  fold_left (fun w a => sent E a w) l w.

Definition ticked (w : world) : world :=
  World (fs w) (log w) (calls w) (posts w) (S (ticks w)).

(** What [save_json] leaves behind and returns. *)
Definition saved (E : env) (data : json) (path : string) (w : world)
  : world * result unit :=
  match storage E path with
  | Written => (put_file path (Some data) w, Ok tt)
  | OpenFails => (w, Raise OSError)
  | DumpFails => (put_file path None w, Raise OSError)
  end.

(** The alerts each cycle decides on. *)
Definition ports_events (target : string) (prev : json) (current new : list Z)
    (closed : list json) : list alert :=
  if negb (truthy prev) then [FirstScanPorts target current]
  else
    (if nonempty new then [NewPorts target new current] else [])
    ++ (if nonempty closed then [PortsClosed target closed current] else []).

Definition hosts_events (subnet : string) (current new : list string)
    (gone : list json) : list alert :=
  (if nonempty new then [NewHosts subnet new current] else [])
  ++ (if nonempty gone then [HostsDisappeared subnet gone current] else []).

(** The alerts a computation raised between two worlds: at most [n], all
    recorded as calls, and posted exactly when a webhook is set. *)
Definition raised (E : env) (n : nat) (w w' : world) : Prop :=
  exists l,
    (length l <= n)%nat
    /\ calls w' = calls w ++ l
    /\ posts w' = posts w ++ (if webhook_unset E then [] else l).

(** Two worlds agree when the files and the clock do; two
    configurations are the same but for delivery when they differ at most
    in the webhook address and in what the endpoint answers. *)
Definition agree (w w' : world) : Prop :=
  fs w = fs w' /\ ticks w = ticks w'.

Definition sim {A} (m m' : M A) : Prop :=
  forall w w', agree w w' ->
    agree (fst (m w)) (fst (m' w')) /\ snd (m w) = snd (m' w').

Definition same_but_delivery (E E' : env) : Prop :=
  NMAPPATH E = NMAPPATH E'
  /\ PREV_PORTS_FILE E = PREV_PORTS_FILE E'
  /\ PREV_HOSTS_FILE E = PREV_HOSTS_FILE E'
  /\ TARGET E = TARGET E'
  /\ SUBNET E = SUBNET E'
  /\ subprocess_run E = subprocess_run E'
  /\ storage E = storage E'
  /\ time_time E = time_time E'.

(** A snapshot file the next run can read back: it is readable when it
    exists. *)
Definition readable_if_present (o : option file) : bool :=
  match o with
  | Some f => readable f
  | None => true
  end.

(** The delta of the specification for a stored list [A] and a current
    list [B]: both comprehensions return, what is added is [B - A], what
    is removed is [A - B], and neither meets [A ∩ B]. *)
Definition is_delta {T : Type} `{Element T} `{Countable T} (A B : list T)
  : Prop :=
  exists added removed : list T,
    not_in_prev (JList (map to_json A)) B = Ok added
    /\ not_in_current (JList (map to_json A)) B = Ok (map to_json removed)
    /\ (list_to_set added : gset T) = list_to_set B ∖ list_to_set A
    /\ (list_to_set removed : gset T) = list_to_set A ∖ list_to_set B
    /\ (list_to_set added : gset T) ## list_to_set A ∩ list_to_set B
    /\ (list_to_set removed : gset T) ## list_to_set A ∩ list_to_set B.

(** ** Sample scanner output *)

Definition nl : string := String "010" EmptyString.
Definition tab : string := String "009" EmptyString.

Definition sample_ports_out : string :=
  "# Nmap 7.80 scan initiated" +:+ nl +:+
  "Host: 10.0.0.5 ()" +:+ tab +:+ "Status: Up" +:+ nl +:+
  "Host: 10.0.0.5 ()" +:+ tab +:+
  "Ports: 443/open/tcp//https///, 22/open/tcp//ssh///, 25/closed/tcp//smtp///, 80/open/tcp//http///"
  +:+ tab +:+ "Ignored State: filtered (65531)" +:+ nl +:+
  "# Nmap done".

Definition sample_hosts_out : string :=
  "# Nmap 7.80 scan initiated" +:+ nl +:+
  "Host: 10.0.0.6 ()" +:+ tab +:+ "Status: Up" +:+ nl +:+
  "Host: 10.0.0.7 ()" +:+ tab +:+ "Status: Down" +:+ nl +:+
  "Host: 10.0.0.5 (gw)" +:+ tab +:+ "Status: Up" +:+ nl +:+
  "# Nmap done".

Definition nonnumeric_ports_out : string :=
  "Host: 10.0.0.5 ()" +:+ tab +:+ "Ports: http/open/tcp//http///".

(** A run in a small lab: nothing stored yet, the scanner answers with
    the sample outputs, the endpoint accepts every request. *)
Definition lab_scanner (cmd : list string) (timeout : Z) : result string :=
  match cmd with
  | _ :: "-p-" :: _ => Ok sample_ports_out
  | _ => Ok sample_hosts_out
  end.

Definition lab : env :=
  Env (Some "https://discord.example/api/webhooks/1") "/usr/bin/nmap"
    "prev_ports.json" "prev_hosts.json" "10.0.0.5" "10.0.0.0/24"
    lab_scanner (fun _ _ => Ok 204) (fun _ => Written)
    (fun n => 1700000000 + Z.of_nat n).

Definition fresh : world := World ∅ [] [] [] 0.

(** The three unusable states, in a world each: no file, a file that
    cannot be opened for reading, a file whose text is not JSON. *)
Definition garbled : world :=
  World (<["prev_ports.json" := File true None]> ∅) [] [] [] 0.

Definition locked : world :=
  World (<["prev_ports.json" := File false (Some (JDict []))]> ∅) [] [] [] 0.

Definition first_alert : alert := FirstScanPorts "10.0.0.5" [22; 80; 443].

(** The lab with one collaborator changed. *)
Definition with_scanner (E : env)
    (run : list string -> Z -> result string) : env :=
  Env (WEBHOOK E) (NMAPPATH E) (PREV_PORTS_FILE E) (PREV_HOSTS_FILE E)
    (TARGET E) (SUBNET E) run (requests_post E) (storage E) (time_time E).

Definition with_endpoint (E : env) (webhook : option string)
    (answer : nat -> alert -> result Z) : env :=
  Env webhook (NMAPPATH E) (PREV_PORTS_FILE E) (PREV_HOSTS_FILE E)
    (TARGET E) (SUBNET E) (subprocess_run E) answer (storage E) (time_time E).

Definition with_storage (E : env) (st : string -> write_outcome) : env :=
  Env (WEBHOOK E) (NMAPPATH E) (PREV_PORTS_FILE E) (PREV_HOSTS_FILE E)
    (TARGET E) (SUBNET E) (subprocess_run E) (requests_post E) st (time_time E).

(** the port scan runs into its timeout, the host scan answers *)
Definition port_scan_times_out : env :=
  with_scanner lab
    (fun cmd timeout =>
       match cmd with
       | _ :: "-p-" :: _ => Raise TimeoutExpired
       | _ => Ok sample_hosts_out
       end).

(** the port scan answers, the scanner cannot be started for the hosts *)
Definition host_scan_fails : env :=
  with_scanner lab
    (fun cmd timeout =>
       match cmd with
       | _ :: "-p-" :: _ => Ok sample_ports_out
       | _ => Raise OSError
       end).

Definition offline : env :=
  with_endpoint lab (WEBHOOK lab) (fun _ _ => Raise RequestException).

Definition rejecting : env :=
  with_endpoint lab (WEBHOOK lab) (fun _ _ => Ok 404).

Definition no_webhook : env :=
  with_endpoint lab None (requests_post lab).

Definition read_only : env := with_storage lab (fun _ => OpenFails).

Definition hosts_read_only : env :=
  with_storage lab
    (fun path => if String.eqb path "prev_hosts.json" then DumpFails else Written).

(** Port records that are JSON of another shape: an empty object, a
    bare list, and an object whose ports are null. *)
Definition empty_record : world :=
  World (<["prev_ports.json" := File true (Some (JDict []))]> ∅) [] [] [] 0.

Definition bare_list_record : world :=
  World (<["prev_ports.json" := File true (Some (JList [JInt 22; JInt 80]))]> ∅)
    [] [] [] 0.


(** A later run: the port record holds 22 and 25, the host record
    10.0.0.5 and 10.0.0.9. *)
Definition later : world :=
  World (<["prev_hosts.json" :=
             File true (Some (snapshot "hosts"
                                (JList [JStr "10.0.0.5"; JStr "10.0.0.9"])
                                1690000000))]>
           (<["prev_ports.json" :=
                File true (Some (snapshot "ports" (JList [JInt 22; JInt 25])
                                   1690000000))]> ∅))
    [] [] [] 0.

(** The sample port scan with its entries in another order and one of
    them twice. *)
Definition reordered_ports_out : string :=
  "Host: 10.0.0.5 ()" +:+ tab +:+
  "Ports: 80/open/tcp//http///, 22/open/tcp//ssh///, 443/open/tcp//https///, 80/open/tcp//http///".

(** The lab with both records at one path. *)
Definition one_path : env :=
  Env (WEBHOOK lab) (NMAPPATH lab) "prev.json" "prev.json" (TARGET lab)
    (SUBNET lab) (subprocess_run lab) (requests_post lab) (storage lab)
    (time_time lab).

(** * Properties *)

Lemma port_eq_JInt (p q : Z) : py_eq p (to_json q) = bool_decide (p = q).
Proof. simpl. destruct (Z.eqb_spec p q); case_bool_decide; congruence. Qed.

Lemma host_eq_JStr (p q : string) :
  py_eq p (to_json q) = bool_decide (p = q).
Proof. simpl. destruct (String.eqb_spec p q); case_bool_decide; congruence. Qed.

Example splitlines_ex :
  Py.splitlines ("a" +:+ String "013" (String "010" (String "010" "b")))
  = ["a"; ""; "b"].
Proof. reflexivity. Qed.

Example parse_ports_sample : parse_ports sample_ports_out = Ok [22; 80; 443].
Proof. vm_compute. reflexivity. Qed.

Example parse_hosts_sample :
  parse_hosts sample_hosts_out = Ok ["10.0.0.5"; "10.0.0.6"].
Proof. vm_compute. reflexivity. Qed.

Example parse_ports_empty : parse_ports "" = Ok [].
Proof. reflexivity. Qed.

Example int_examples :
  Py.int " 8_0 " = Some 80 /\ Py.int "-7" = Some (-7) /\ Py.int "x" = None
  /\ Py.int "8__0" = None /\ Py.int "" = None /\ Py.int "007" = Some 7.
Proof. vm_compute. repeat split. Qed.

Example int_separator_examples :
  Py.int (String "031" "80") = None
  /\ Py.int ("80" +:+ String "031" "") = None
  /\ Py.int ("80" +:+ String "160" "") = Some 80
  /\ Py.int (String "009" "80" +:+ String "010" "") = Some 80
  /\ Py.strip ("80" +:+ String "031" "") = "80".
Proof. vm_compute. repeat split. Qed.

(** ** Text lemmas *)

Lemma startswith_append (p s : string) :
  Py.startswith p s = true -> exists v, s = p +:+ v.
Proof.
  revert s. induction p as [|a p IH]; intros s Hs.
  - exists s. reflexivity.
  - destruct s as [|b s]; simpl in Hs; [discriminate|].
    apply andb_true_iff in Hs as [Hab Hps].
    apply Ascii.eqb_eq in Hab. subst b.
    destruct (IH s Hps) as [v ->]. exists v. reflexivity.
Qed.

Lemma contains_append (sub s : string) :
  Py.contains sub s = true -> exists u v, s = u +:+ (sub +:+ v).
Proof.
  induction s as [|c s IH]; simpl; intros Hs.
  - rewrite orb_false_r in Hs.
    apply startswith_append in Hs as [v ->]. exists EmptyString, v. reflexivity.
  - apply orb_true_iff in Hs as [Hs|Hs].
    + apply startswith_append in Hs as [v ->]. exists EmptyString, v. reflexivity.
    + destruct (IH Hs) as (u & v & ->). exists (String c u), v. reflexivity.
Qed.

Lemma push_token_length (t : string) (ts : list string) :
  (length ts <= length (Py.push_token t ts) <= S (length ts))%nat.
Proof. unfold Py.push_token. destruct (Py.is_empty t); simpl; lia. Qed.

Lemma split_ws_cons_length (c : ascii) (s : string) :
  (length (Py.split_ws s) <= length (Py.split_ws (String c s)))%nat.
Proof.
  unfold Py.split_ws. simpl.
  destruct (Py.split_ws_from s) as [t ts].
  destruct (Py.is_space c); simpl.
  - reflexivity.
  - pose proof (push_token_length t ts). lia.
Qed.

Lemma split_ws_append_length (u s : string) :
  (length (Py.split_ws s) <= length (Py.split_ws (u +:+ s)))%nat.
Proof.
  induction u as [|c u IH]; simpl.
  - reflexivity.
  - etransitivity; [exact IH|]. apply split_ws_cons_length.
Qed.

(** Two characters that are not white space with white space between
    them lie in two different words. *)
Lemma split_ws_two_words (a w b : ascii) (q : string) :
  Py.is_space a = false -> Py.is_space w = true -> Py.is_space b = false ->
  (2 <= length (Py.split_ws (String a (String w (String b q)))))%nat.
Proof.
  intros Ha Hw Hb. unfold Py.split_ws. simpl.
  destruct (Py.split_ws_from q) as [t ts].
  rewrite Ha, Hw, Hb. simpl. lia.
Qed.

Lemma split_ws_status_up (line : string) :
  Py.contains "Status: Up" line = true ->
  (2 <= length (Py.split_ws line))%nat.
Proof.
  intros Hc. apply contains_append in Hc as (u & v & ->).
  etransitivity; [|apply split_ws_append_length].
  simpl. do 6 (etransitivity; [|apply split_ws_cons_length]).
  apply split_ws_two_words; reflexivity.
Qed.

Lemma index_ok {A} (l : list A) (i : nat) :
  (i < length l)%nat -> exists a, index l i = Ok a.
Proof.
  intros Hi. unfold index.
  destruct (nth_error l i) eqn:Hn; [eauto|].
  apply nth_error_None in Hn. lia.
Qed.

(** The piece after the first separator exists whenever the separator
    occurs. *)
Lemma split_from_contains (sep s : string) :
  sep <> EmptyString -> Py.contains sep s = true ->
  (1 <= length (snd (Py.split_from sep O s)))%nat.
Proof.
  intros Hsep. induction s as [|c s IH]; intros Hc.
  - destruct sep; [congruence|simpl in Hc; discriminate].
  - cbn [Py.split_from]. cbn [Py.contains] in Hc.
    destruct (Py.startswith sep (String c s)).
    + destruct (Py.split_from sep (Nat.pred _) s). simpl. lia.
    + simpl in Hc. specialize (IH Hc).
      destruct (Py.split_from sep O s). exact IH.
Qed.

Lemma split_contains_index (sep s : string) :
  sep <> EmptyString -> Py.contains sep s = true ->
  exists after, index (Py.split sep s) 1 = Ok after.
Proof.
  intros Hsep Hc. apply index_ok. unfold Py.split.
  pose proof (split_from_contains sep s Hsep Hc) as Hl.
  destruct (Py.split_from sep O s). simpl in *. lia.
Qed.

(** ** Loops *)

Lemma for_each_total {A S} (body : A -> S -> result S) (xs : list A) :
  (forall x s, exists s', body x s = Ok s') ->
  forall s, exists s', for_each xs body s = Ok s'.
Proof.
  intros Hb. induction xs as [|x xs IH]; intros s; simpl.
  - eauto.
  - destruct (Hb x s) as [s1 ->]. simpl. apply IH.
Qed.

Lemma for_each_raises {A S} (P : exn -> Prop) (body : A -> S -> result S)
    (xs : list A) :
  (forall x s e, body x s = Raise e -> P e) ->
  forall s e, for_each xs body s = Raise e -> P e.
Proof.
  intros Hb. induction xs as [|x xs IH]; intros s e; simpl.
  - discriminate.
  - destruct (body x s) as [s1|e1] eqn:Hx; simpl.
    + apply IH.
    + intros [= <-]. eapply Hb, Hx.
Qed.

(** ** The parsers *)

(** X1. [parse_hosts] returns for every text: a line that passes its
    test has a second word, so [parts[1]] never raises. *)
Theorem parse_hosts_total (out : string) :
  exists hosts, parse_hosts out = Ok hosts.
Proof.
  unfold parse_hosts.
  destruct (for_each_total
    (fun line hosts =>
       if Py.startswith "Host:" line && Py.contains "Status: Up" line then
         ip <~ index (Py.split_ws line) 1 ;; Ok (hosts ++ [ip])
       else Ok hosts) (Py.splitlines out)) with (s := @nil string) as [hs Hhs].
  - intros line hosts.
    destruct (Py.startswith "Host:" line); simpl; [|eauto].
    destruct (Py.contains "Status: Up" line) eqn:Hc; [|eauto].
    destruct (index_ok (Py.split_ws line) 1) as [ip ->].
    + apply split_ws_status_up in Hc. lia.
    + simpl. eauto.
  - rewrite Hhs. simpl. eauto.
Qed.

(** X2. The only exception [parse_ports] can raise is the [ValueError]
    of [int]: a line that contains [Ports:] has a piece after it, so
    [split("Ports:")[1]] never raises. *)
Theorem parse_ports_raises_only_ValueError (out : string) (e : exn) :
  parse_ports out = Raise e -> e = ValueError.
Proof.
  unfold parse_ports.
  destruct (for_each _ _ _) as [ports|e'] eqn:Hloop; simpl; [discriminate|].
  intros [= <-]. revert Hloop.
  apply (for_each_raises (fun e => e = ValueError)). clear. intros line ports e.
  destruct (Py.contains "Ports:" line) eqn:Hc; [|discriminate].
  destruct (split_contains_index "Ports:" line) as [after ->]; [discriminate|exact Hc|].
  simpl. apply (for_each_raises (fun e => e = ValueError)). clear. intros p ports e.
  destruct (Py.split "/" (Py.strip p)) as [|seg0 [|seg1 segs]]; try discriminate.
  destruct (String.eqb seg1 "open"); [|discriminate].
  unfold int_of. destruct (Py.int seg0); simpl; [discriminate|].
  congruence.
Qed.

Lemma parse_ports_raises_only_ValueError_witness : ValueError = ValueError.
Proof.
  apply (parse_ports_raises_only_ValueError nonnumeric_ports_out ValueError).
  vm_compute. reflexivity.
Defined.

(** ** Running the helpers *)

Lemma bind_ok {A B} (m : M A) (k : A -> M B) (w w' : world) (a : A) :
  m w = (w', Ok a) -> bind m k w = k a w'.
Proof. intros Hm. unfold bind. rewrite Hm. reflexivity. Qed.

Lemma bind_raise {A B} (m : M A) (k : A -> M B) (w w' : world) (e : exn) :
  m w = (w', Raise e) -> bind m k w = (w', Raise e).
Proof. intros Hm. unfold bind. rewrite Hm. reflexivity. Qed.

Lemma send_discord_run (E : env) (a : alert) (w : world) :
  send_discord E a w = (sent E a w, Ok tt).
Proof.
  unfold send_discord, sent, bind, called, try_except, post, logging.
  simpl. destruct (webhook_unset E); [reflexivity|]. simpl.
  destruct (requests_post E (length (posts w)) a); reflexivity.
Qed.

Lemma ports_alerts_run (E : env) (prev : json) (cur new : list Z)
    (closed : list json) (w : world) :
  ports_alerts E prev cur new closed w
  = (sent_all E (ports_events (TARGET E) prev cur new closed) w, Ok tt).
Proof.
  unfold ports_alerts, ports_events, when, bind.
  destruct (negb (truthy prev)); [apply send_discord_run|].
  destruct (nonempty new), (nonempty closed); unfold ret; simpl;
    rewrite ?send_discord_run; simpl; rewrite ?send_discord_run; reflexivity.
Qed.

Lemma hosts_alerts_run (E : env) (cur new : list string) (gone : list json)
    (w : world) :
  hosts_alerts E cur new gone w
  = (sent_all E (hosts_events (SUBNET E) cur new gone) w, Ok tt).
Proof.
  unfold hosts_alerts, hosts_events, when, bind.
  destruct (nonempty new), (nonempty gone); unfold ret; simpl;
    rewrite ?send_discord_run; simpl; rewrite ?send_discord_run; reflexivity.
Qed.

Lemma fs_sent_all (E : env) (l : list alert) (w : world) :
  fs (sent_all E l w) = fs w.
Proof.
  revert w. induction l as [|a l IH]; intros w; simpl; [reflexivity|].
  rewrite IH. unfold sent. destruct (webhook_unset E); reflexivity.
Qed.

Lemma ticks_sent_all (E : env) (l : list alert) (w : world) :
  ticks (sent_all E l w) = ticks w.
Proof.
  revert w. induction l as [|a l IH]; intros w; simpl; [reflexivity|].
  rewrite IH. unfold sent. destruct (webhook_unset E); reflexivity.
Qed.

Lemma calls_sent_all (E : env) (l : list alert) (w : world) :
  calls (sent_all E l w) = calls w ++ l.
Proof.
  revert w. induction l as [|a l IH]; intros w; simpl.
  - symmetry. apply app_nil_r.
  - rewrite IH. unfold sent.
    destruct (webhook_unset E); simpl; rewrite <- app_assoc; reflexivity.
Qed.

Lemma load_json_run (path : string) (default : json) (w : world) :
  load_json path default w = (w, Ok (stored (fs w !! path) default)).
Proof.
  unfold load_json, bind, os_path_exists, try_except, json_load_open, ret, stored.
  destruct (fs w !! path) as [[r [v|]]|] eqn:Hf; simpl;
    try (rewrite Hf; simpl; destruct r; reflexivity).
  reflexivity.
Qed.

Lemma previous_run (path key : string) (w : world) :
  previous path key w
  = (w, getitem (stored (fs w !! path) (JDict [(key, JList [])])) key).
Proof.
  unfold previous. erewrite bind_ok by apply load_json_run. reflexivity.
Qed.

Lemma ports_detect_run (E : env) (w : world) (out : string) (cur new : list Z)
    (prev : json) (closed : list json) :
  subprocess_run E (ports_cmd E (TARGET E)) 300 = Ok out ->
  parse_ports out = Ok cur ->
  getitem (stored (fs w !! PREV_PORTS_FILE E) (JDict [("ports", JList [])]))
    "ports" = Ok prev ->
  not_in_prev prev cur = Ok new ->
  not_in_current prev cur = Ok closed ->
  ports_detect E w
  = (sent_all E (ports_events (TARGET E) prev cur new closed)
       (logged (Running (ports_cmd E (TARGET E))) w), Ok cur).
Proof.
  intros Hrun Hparse Hprev Hnew Hclosed.
  unfold ports_detect, run_nmap_ports, bind, logging, lift.
  rewrite Hrun, Hparse, previous_run. simpl.
  rewrite Hprev, Hnew, Hclosed, ports_alerts_run. reflexivity.
Qed.

Lemma hosts_detect_run (E : env) (w : world) (out : string)
    (cur new : list string) (prev : json) (gone : list json) :
  subprocess_run E (hosts_cmd E (SUBNET E)) 120 = Ok out ->
  parse_hosts out = Ok cur ->
  getitem (stored (fs w !! PREV_HOSTS_FILE E) (JDict [("hosts", JList [])]))
    "hosts" = Ok prev ->
  not_in_prev prev cur = Ok new ->
  not_in_current prev cur = Ok gone ->
  hosts_detect E w
  = (sent_all E (hosts_events (SUBNET E) cur new gone)
       (logged (Running (hosts_cmd E (SUBNET E))) w), Ok cur).
Proof.
  intros Hrun Hparse Hprev Hnew Hgone.
  unfold hosts_detect, run_nmap_hosts, bind, logging, lift.
  rewrite Hrun, Hparse, previous_run. simpl.
  rewrite Hprev, Hnew, Hgone, hosts_alerts_run. reflexivity.
Qed.

(** ** Comparing a stored list with the current one *)

Section Diff.
Context {T : Type} `{Element T} `{EqDecision T}.
Hypothesis py_eq_to_json :
  forall p q : T, py_eq p (to_json q) = bool_decide (p = q).

Lemma existsb_py_eq (p : T) (A : list T) :
  existsb (py_eq p) (map to_json A) = bool_decide (p ∈ A).
Proof.
  destruct (existsb _ _) eqn:Hex; symmetry.
  - apply bool_decide_eq_true_2.
    apply existsb_exists in Hex as (v & Hin & Hv).
    apply in_map_iff in Hin as (q & <- & Hq).
    rewrite py_eq_to_json in Hv. apply bool_decide_eq_true_1 in Hv.
    subst q. apply list_elem_of_In, Hq.
  - apply bool_decide_eq_false_2. intros Hp.
    apply not_true_iff_false in Hex. apply Hex.
    apply existsb_exists. exists (to_json p). split.
    + apply in_map, list_elem_of_In, Hp.
    + rewrite py_eq_to_json. apply bool_decide_eq_true_2. reflexivity.
Qed.

Lemma member_to_json (q : T) (B : list T) :
  member (to_json q) B = bool_decide (q ∈ B).
Proof.
  unfold member. destruct (existsb _ _) eqn:Hex; symmetry.
  - apply bool_decide_eq_true_2.
    apply existsb_exists in Hex as (p & Hin & Hp).
    rewrite py_eq_to_json in Hp. apply bool_decide_eq_true_1 in Hp.
    subst p. apply list_elem_of_In, Hin.
  - apply bool_decide_eq_false_2. intros Hq.
    apply not_true_iff_false in Hex. apply Hex.
    apply existsb_exists. exists q. split.
    + apply list_elem_of_In, Hq.
    + rewrite py_eq_to_json. apply bool_decide_eq_true_2. reflexivity.
Qed.

Lemma not_in_prev_list (A B : list T) :
  not_in_prev (JList (map to_json A)) B = Ok (filter (fun p => p ∉ A) B).
Proof.
  unfold not_in_prev. induction B as [|p B IH]; [reflexivity|].
  cbn [comprehension]. rewrite IH. cbn [py_in rbind].
  rewrite existsb_py_eq, filter_cons.
  case_bool_decide; case_decide; simpl; try reflexivity; contradiction.
Qed.

Lemma not_in_current_list (A B : list T) :
  not_in_current (JList (map to_json A)) B
  = Ok (map to_json (filter (fun p => p ∉ B) A)).
Proof.
  unfold not_in_current. cbn [py_iter rbind]. f_equal.
  induction A as [|q A IH]; [reflexivity|].
  cbn [map]. rewrite !filter_cons, IH.
  rewrite member_to_json.
  destruct (decide (q ∈ B)) as [Hq|Hq].
  - rewrite bool_decide_eq_true_2 by exact Hq. simpl.
    rewrite !decide_False
      by first [exact id | intros Hn; exact (Hn Hq)].
    reflexivity.
  - rewrite bool_decide_eq_false_2 by exact Hq. simpl.
    rewrite !decide_True by first [exact I | exact Hq].
    reflexivity.
Qed.
End Diff.

Section Delta.
Context {T : Type} `{Element T} `{Countable T}.
Hypothesis py_eq_to_json :
  forall p q : T, py_eq p (to_json q) = bool_decide (p = q).

Lemma lists_delta (A B : list T) : is_delta A B.
Proof.
  exists (filter (fun p => p ∉ A) B), (filter (fun p => p ∉ B) A).
  split; [apply not_in_prev_list, py_eq_to_json|].
  split; [apply not_in_current_list, py_eq_to_json|].
  repeat split.
  - apply set_eq. intros x.
    rewrite elem_of_difference, !elem_of_list_to_set, list_elem_of_filter.
    tauto.
  - apply set_eq. intros x.
    rewrite elem_of_difference, !elem_of_list_to_set, list_elem_of_filter.
    tauto.
  - intros x. rewrite elem_of_intersection, !elem_of_list_to_set,
      list_elem_of_filter. tauto.
  - intros x. rewrite elem_of_intersection, !elem_of_list_to_set,
      list_elem_of_filter. tauto.
Qed.
End Delta.

(** C2. For all sets A (previous) and B (current), given as the stored
    list and the current list: the new elements are B − A, the removed
    elements are A − B, and both are disjoint from A ∩ B; for the port
    comparison and for the host comparison alike. *)
Theorem diff_is_set_difference :
  (forall A B : list Z, is_delta A B)
  /\ (forall A B : list string, is_delta A B).
Proof.
  split; intros A B.
  - apply lists_delta, port_eq_JInt.
  - apply lists_delta, host_eq_JStr.
Qed.

(** A port field that ends in the separator 31 is not a number for
    [int], though [str.strip] would drop that character. *)
Example parse_ports_separator :
  parse_ports ("Ports: 80" +:+ String "031" "/open/tcp//http///")
  = Raise ValueError.
Proof. vm_compute. reflexivity. Qed.

(** C3. [parse_ports] is not total: an entry marked open whose port field
    is not a number makes [int] raise, and nothing catches it. *)
Theorem parse_ports_nonnumeric_raises :
  parse_ports nonnumeric_ports_out = Raise ValueError.
Proof. vm_compute. reflexivity. Qed.

(** X19. When the record is absent, cannot be read or is not JSON,
    [load_json] returns the default, the previous list is empty, and the
    world is as before. *)
Theorem load_json_defaults (path key : string) (default : json) (w : world) :
  unusable (fs w !! path) = true ->
  load_json path default w = (w, Ok default)
  /\ previous path key w = (w, Ok (JList []))
  /\ truthy (JList []) = false.
Proof.
  intros Hu.
  assert (Hs : forall d, stored (fs w !! path) d = d).
  { intros d. unfold stored, unusable in *.
    destruct (fs w !! path) as [[[] [v|]]|]; try reflexivity. discriminate. }
  split; [|split].
  - rewrite load_json_run, Hs. reflexivity.
  - rewrite previous_run, Hs. simpl. rewrite String.eqb_refl. reflexivity.
  - reflexivity.
Qed.

Lemma load_json_defaults_witness :
  previous "prev_ports.json" "ports" fresh = (fresh, Ok (JList []))
  /\ previous "prev_ports.json" "ports" garbled = (garbled, Ok (JList []))
  /\ previous "prev_ports.json" "ports" locked = (locked, Ok (JList [])).
Proof.
  split; [|split].
  - apply (load_json_defaults "prev_ports.json" "ports" JNull fresh).
    reflexivity.
  - apply (load_json_defaults "prev_ports.json" "ports" JNull garbled).
    vm_compute. reflexivity.
  - apply (load_json_defaults "prev_ports.json" "ports" JNull locked).
    vm_compute. reflexivity.
Defined.

(** C5. Loading does fail the caller for a record that is malformed
    without being unparsable.  The file holds [{}] (or a bare list):
    [json.load] succeeds, so [load_json] hands the value back instead of
    the default, and the subscript of [main], outside any [try], raises
    [KeyError] ([TypeError]); the run ends after the scan, with no alert
    and the file as it was. *)
Theorem wrong_shape_record_raises :
  load_json "prev_ports.json" (JDict [("ports", JList [])]) empty_record
  = (empty_record, Ok (JDict []))
  /\ previous "prev_ports.json" "ports" empty_record
     = (empty_record, Raise KeyError)
  /\ main lab empty_record
     = (logged (Running (ports_cmd lab "10.0.0.5")) empty_record,
        Raise KeyError)
  /\ previous "prev_ports.json" "ports" bare_list_record
     = (bare_list_record, Raise TypeError)
  /\ main lab bare_list_record
     = (logged (Running (ports_cmd lab "10.0.0.5")) bare_list_record,
        Raise TypeError).
Proof. repeat split; vm_compute; reflexivity. Qed.

(** A record that is JSON of another shape is handed back as it is, and
    the subscript in [main] raises. *)
Lemma previous_wrong_shape (path : string) (w : world) :
  fs w !! path = Some (File true (Some (JDict []))) ->
  previous path "ports" w = (w, Raise KeyError).
Proof. intros Hf. rewrite previous_run, Hf. reflexivity. Qed.

(** ** Delivery does not reach the files, the clock or the result *)

Lemma agree_refl (w : world) : agree w w.
Proof. split; reflexivity. Qed.

Lemma sim_ret {A} (a : A) : sim (ret a) (ret a).
Proof. intros w w' Hag. split; [exact Hag|reflexivity]. Qed.

Lemma sim_lift {A} (r : result A) : sim (lift r) (lift r).
Proof. intros w w' Hag. split; [exact Hag|reflexivity]. Qed.

Lemma sim_bind {A B} (m m' : M A) (k k' : A -> M B) :
  sim m m' -> (forall a, sim (k a) (k' a)) -> sim (bind m k) (bind m' k').
Proof.
  intros Hm Hk w w' Hag. unfold bind.
  destruct (Hm w w' Hag) as [Hag1 Hr].
  destruct (m w) as [w1 r1], (m' w') as [w1' r1']. simpl in Hag1, Hr. subst r1'.
  destruct r1 as [a|e].
  - apply Hk, Hag1.
  - split; [exact Hag1|reflexivity].
Qed.

Lemma sim_logging (l l' : log_entry) : sim (logging l) (logging l').
Proof. intros w w' Hag. split; [exact Hag|reflexivity]. Qed.

Lemma sim_sent_all (E E' : env) (l l' : list alert) (w w' : world) :
  agree w w' -> agree (sent_all E l w) (sent_all E' l' w').
Proof.
  intros [Hfs Ht]. split.
  - rewrite !fs_sent_all. exact Hfs.
  - rewrite !ticks_sent_all. exact Ht.
Qed.

Lemma sim_ports_alerts (E E' : env) (prev : json) (cur new : list Z)
    (closed : list json) :
  sim (ports_alerts E prev cur new closed) (ports_alerts E' prev cur new closed).
Proof.
  intros w w' Hag. rewrite !ports_alerts_run. simpl.
  split; [apply sim_sent_all, Hag|reflexivity].
Qed.

Lemma sim_hosts_alerts (E E' : env) (cur new : list string) (gone : list json) :
  sim (hosts_alerts E cur new gone) (hosts_alerts E' cur new gone).
Proof.
  intros w w' Hag. rewrite !hosts_alerts_run. simpl.
  split; [apply sim_sent_all, Hag|reflexivity].
Qed.

Lemma sim_previous (path key : string) :
  sim (previous path key) (previous path key).
Proof.
  intros w w' Hag. rewrite !previous_run. simpl.
  destruct Hag as [Hfs Ht]. rewrite Hfs. split; [split; assumption|reflexivity].
Qed.

Lemma sim_time_now (E E' : env) :
  time_time E = time_time E' -> sim (time_now E) (time_now E').
Proof.
  intros Ht w w' [Hfs Hticks]. unfold time_now. simpl.
  rewrite Ht, Hticks. split; [split; simpl; congruence|reflexivity].
Qed.

Lemma sim_save_json (E E' : env) (data : json) (path : string) :
  storage E = storage E' ->
  sim (save_json E data path) (save_json E' data path).
Proof.
  intros Hst w w' [Hfs Hticks]. unfold save_json, put_file.
  rewrite Hst, Hfs.
  destruct (storage E' path); simpl;
    (split; [split; simpl; congruence|reflexivity]).
Qed.

Lemma sim_ports_cycle (E E' : env) :
  same_but_delivery E E' -> sim (ports_cycle E) (ports_cycle E').
Proof.
  intros (Hn & Hpp & Hph & Ht & Hs & Hrun & Hst & Htime).
  unfold ports_cycle, ports_detect, run_nmap_ports, ports_cmd.
  rewrite Hn, Hpp, Ht, Hrun.
  repeat first
    [ apply sim_ret | apply sim_lift | apply sim_logging | apply sim_previous
    | apply sim_ports_alerts | apply sim_time_now, Htime
    | apply sim_save_json, Hst | apply sim_bind; [|intros ?] ].
Qed.

Lemma sim_hosts_cycle (E E' : env) :
  same_but_delivery E E' -> sim (hosts_cycle E) (hosts_cycle E').
Proof.
  intros (Hn & Hpp & Hph & Ht & Hs & Hrun & Hst & Htime).
  unfold hosts_cycle, hosts_detect, run_nmap_hosts, hosts_cmd.
  rewrite Hn, Hph, Hs, Hrun.
  repeat first
    [ apply sim_ret | apply sim_lift | apply sim_logging | apply sim_previous
    | apply sim_hosts_alerts | apply sim_time_now, Htime
    | apply sim_save_json, Hst | apply sim_bind; [|intros ?] ].
Qed.

(** Whatever the webhook address is and whatever the endpoint answers,
    a run ends with the same result and the same files. *)
Lemma main_same_but_delivery (E E' : env) (w : world) :
  same_but_delivery E E' ->
  snd (main E w) = snd (main E' w)
  /\ fs (fst (main E w)) = fs (fst (main E' w)).
Proof.
  intros Hsame.
  assert (Hsim : sim (main E) (main E')).
  { unfold main. apply sim_bind; [apply sim_ports_cycle, Hsame|intros cp].
    apply sim_bind; [apply sim_hosts_cycle, Hsame|intros ch].
    apply sim_logging. }
  destruct (Hsim w w (agree_refl w)) as [[Hfs _] Hr].
  split; assumption.
Qed.

(** ** The two cycles *)

Ltac run_detect :=
  repeat match goal with
  | |- context [match ?r with Ok _ => _ | Raise _ => _ end] =>
      destruct r; simpl
  | |- context [previous _ _ _] => rewrite previous_run; simpl
  | |- context [ports_alerts _ _ _ _ _ _] => rewrite ports_alerts_run; simpl
  | |- context [hosts_alerts _ _ _ _ _] => rewrite hosts_alerts_run; simpl
  end.

Lemma ports_detect_frame (E : env) (w w0 : world) (r : result (list Z)) :
  ports_detect E w = (w0, r) -> fs w0 = fs w /\ ticks w0 = ticks w.
Proof.
  unfold ports_detect, run_nmap_ports, bind, logging, lift, ret. simpl.
  run_detect; intros [= <- <-]; simpl;
    rewrite ?fs_sent_all, ?ticks_sent_all; split; reflexivity.
Qed.

Lemma hosts_detect_frame (E : env) (w w0 : world) (r : result (list string)) :
  hosts_detect E w = (w0, r) -> fs w0 = fs w /\ ticks w0 = ticks w.
Proof.
  unfold hosts_detect, run_nmap_hosts, bind, logging, lift, ret. simpl.
  run_detect; intros [= <- <-]; simpl;
    rewrite ?fs_sent_all, ?ticks_sent_all; split; reflexivity.
Qed.

Lemma ports_detect_scan_fails (E : env) (w : world) (e : exn) :
  subprocess_run E (ports_cmd E (TARGET E)) 300 = Raise e ->
  ports_detect E w = (logged (Running (ports_cmd E (TARGET E))) w, Raise e).
Proof.
  intros Hrun. unfold ports_detect, run_nmap_ports, bind, logging, lift.
  rewrite Hrun. reflexivity.
Qed.

Lemma hosts_detect_scan_fails (E : env) (w : world) (e : exn) :
  subprocess_run E (hosts_cmd E (SUBNET E)) 120 = Raise e ->
  hosts_detect E w = (logged (Running (hosts_cmd E (SUBNET E))) w, Raise e).
Proof.
  intros Hrun. unfold hosts_detect, run_nmap_hosts, bind, logging, lift.
  rewrite Hrun. reflexivity.
Qed.

Lemma ports_cycle_after_detect (E : env) (w w0 : world) (cur : list Z) :
  ports_detect E w = (w0, Ok cur) ->
  ports_cycle E w
  = let '(w1, r) :=
      saved E (snapshot "ports" (JList (map JInt cur)) (time_time E (ticks w0)))
        (PREV_PORTS_FILE E) (ticked w0) in
    (w1, match r with Ok _ => Ok cur | Raise e => Raise e end).
Proof.
  intros Hd. unfold ports_cycle. erewrite bind_ok by exact Hd.
  unfold bind, time_now, save_json, saved, ticked, ret. simpl.
  destruct (storage E (PREV_PORTS_FILE E)); reflexivity.
Qed.

Lemma hosts_cycle_after_detect (E : env) (w w0 : world) (cur : list string) :
  hosts_detect E w = (w0, Ok cur) ->
  hosts_cycle E w
  = let '(w1, r) :=
      saved E (snapshot "hosts" (JList (map JStr cur)) (time_time E (ticks w0)))
        (PREV_HOSTS_FILE E) (ticked w0) in
    (w1, match r with Ok _ => Ok cur | Raise e => Raise e end).
Proof.
  intros Hd. unfold hosts_cycle. erewrite bind_ok by exact Hd.
  unfold bind, time_now, save_json, saved, ticked, ret. simpl.
  destruct (storage E (PREV_HOSTS_FILE E)); reflexivity.
Qed.

Lemma ports_cycle_detect_raises (E : env) (w w0 : world) (e : exn) :
  ports_detect E w = (w0, Raise e) -> ports_cycle E w = (w0, Raise e).
Proof. intros Hd. unfold ports_cycle. apply bind_raise, Hd. Qed.

Lemma hosts_cycle_detect_raises (E : env) (w w0 : world) (e : exn) :
  hosts_detect E w = (w0, Raise e) -> hosts_cycle E w = (w0, Raise e).
Proof. intros Hd. unfold hosts_cycle. apply bind_raise, Hd. Qed.

(** A cycle that returns has written its snapshot. *)
Lemma ports_cycle_returns (E : env) (w w1 : world) (cur : list Z) :
  ports_cycle E w = (w1, Ok cur) ->
  exists w0,
    ports_detect E w = (w0, Ok cur)
    /\ storage E (PREV_PORTS_FILE E) = Written
    /\ w1 = put_file (PREV_PORTS_FILE E)
              (Some (snapshot "ports" (JList (map JInt cur))
                       (time_time E (ticks w0)))) (ticked w0).
Proof.
  intros Hc. destruct (ports_detect E w) as [w0 [cur0|e]] eqn:Hd.
  - rewrite (ports_cycle_after_detect E w w0 cur0 Hd) in Hc.
    unfold saved in Hc.
    destruct (storage E (PREV_PORTS_FILE E)); try discriminate.
    injection Hc as <- <-. eauto.
  - rewrite (ports_cycle_detect_raises E w w0 e Hd) in Hc. discriminate.
Qed.

Lemma hosts_cycle_returns (E : env) (w w1 : world) (cur : list string) :
  hosts_cycle E w = (w1, Ok cur) ->
  exists w0,
    hosts_detect E w = (w0, Ok cur)
    /\ storage E (PREV_HOSTS_FILE E) = Written
    /\ w1 = put_file (PREV_HOSTS_FILE E)
              (Some (snapshot "hosts" (JList (map JStr cur))
                       (time_time E (ticks w0)))) (ticked w0).
Proof.
  intros Hc. destruct (hosts_detect E w) as [w0 [cur0|e]] eqn:Hd.
  - rewrite (hosts_cycle_after_detect E w w0 cur0 Hd) in Hc.
    unfold saved in Hc.
    destruct (storage E (PREV_HOSTS_FILE E)); try discriminate.
    injection Hc as <- <-. eauto.
  - rewrite (hosts_cycle_detect_raises E w w0 e Hd) in Hc. discriminate.
Qed.

Lemma ports_detect_returns (E : env) (w w0 : world) (cur : list Z) :
  ports_detect E w = (w0, Ok cur) ->
  exists out,
    subprocess_run E (ports_cmd E (TARGET E)) 300 = Ok out
    /\ parse_ports out = Ok cur.
Proof.
  unfold ports_detect, run_nmap_ports, bind, logging, lift, ret. simpl.
  destruct (subprocess_run E _ 300) as [out|] eqn:Hrun; simpl; [|discriminate].
  destruct (parse_ports out) as [cur0|] eqn:Hparse; simpl; [|discriminate].
  run_detect; intros [= _ <-]. eauto.
Qed.

Lemma hosts_detect_returns (E : env) (w w0 : world) (cur : list string) :
  hosts_detect E w = (w0, Ok cur) ->
  exists out,
    subprocess_run E (hosts_cmd E (SUBNET E)) 120 = Ok out
    /\ parse_hosts out = Ok cur.
Proof.
  unfold hosts_detect, run_nmap_hosts, bind, logging, lift, ret. simpl.
  destruct (subprocess_run E _ 120) as [out|] eqn:Hrun; simpl; [|discriminate].
  destruct (parse_hosts out) as [cur0|] eqn:Hparse; simpl; [|discriminate].
  run_detect; intros [= _ <-]. eauto.
Qed.

(** C6. A cycle that reaches the persistence step and can write
    replaces the snapshot file by the list just observed, the one parsed
    from the output of this cycle's scan, under its key and next to the
    time of the write: the file then holds the object
    [{"ports": current_ports, "ts": now}] (for the hosts
    [{"hosts": current_hosts, "ts": now}]) and nothing of what it held
    before.  Nothing is asked of the alerts raised or of their delivery,
    and every other file is as before. *)
Theorem snapshot_overwritten :
  (forall (E : env) (w w0 : world) (cur : list Z),
     ports_detect E w = (w0, Ok cur) ->
     storage E (PREV_PORTS_FILE E) = Written ->
     exists w1 out,
       ports_cycle E w = (w1, Ok cur)
       /\ subprocess_run E (ports_cmd E (TARGET E)) 300 = Ok out
       /\ parse_ports out = Ok cur
       /\ fs w1
          = <[PREV_PORTS_FILE E :=
                File (readable_if_present (fs w !! PREV_PORTS_FILE E))
                  (Some (JDict [("ports", JList (map JInt cur));
                                ("ts", JInt (time_time E (ticks w)))]))]>
              (fs w))
  /\ (forall (E : env) (w w0 : world) (cur : list string),
        hosts_detect E w = (w0, Ok cur) ->
        storage E (PREV_HOSTS_FILE E) = Written ->
        exists w1 out,
          hosts_cycle E w = (w1, Ok cur)
          /\ subprocess_run E (hosts_cmd E (SUBNET E)) 120 = Ok out
          /\ parse_hosts out = Ok cur
          /\ fs w1
             = <[PREV_HOSTS_FILE E :=
                   File (readable_if_present (fs w !! PREV_HOSTS_FILE E))
                     (Some (JDict [("hosts", JList (map JStr cur));
                                   ("ts", JInt (time_time E (ticks w)))]))]>
                 (fs w)).
Proof.
  split; intros E w w0 cur Hd Hst.
  - destruct (ports_detect_frame E w w0 _ Hd) as [Hfs Ht].
    destruct (ports_detect_returns E w w0 cur Hd) as (out & Hrun & Hparse).
    rewrite (ports_cycle_after_detect E w w0 cur Hd). unfold saved.
    rewrite Hst. eexists. exists out. split; [reflexivity|].
    split; [exact Hrun|]. split; [exact Hparse|].
    unfold put_file, ticked, snapshot. simpl. rewrite Hfs, Ht.
    unfold readable_if_present. destruct (fs w !! PREV_PORTS_FILE E); reflexivity.
  - destruct (hosts_detect_frame E w w0 _ Hd) as [Hfs Ht].
    destruct (hosts_detect_returns E w w0 cur Hd) as (out & Hrun & Hparse).
    rewrite (hosts_cycle_after_detect E w w0 cur Hd). unfold saved.
    rewrite Hst. eexists. exists out. split; [reflexivity|].
    split; [exact Hrun|]. split; [exact Hparse|].
    unfold put_file, ticked, snapshot. simpl. rewrite Hfs, Ht.
    unfold readable_if_present. destruct (fs w !! PREV_HOSTS_FILE E); reflexivity.
Qed.

Lemma snapshot_overwritten_witness :
  (exists w1 out,
     ports_cycle lab fresh = (w1, Ok [22; 80; 443])
     /\ subprocess_run lab (ports_cmd lab (TARGET lab)) 300 = Ok out
     /\ parse_ports out = Ok [22; 80; 443]
     /\ fs w1
        = <["prev_ports.json" :=
              File true
                (Some (JDict [("ports", JList [JInt 22; JInt 80; JInt 443]);
                              ("ts", JInt 1700000000)]))]> ∅)
  /\ (exists w1 out,
        hosts_cycle lab later = (w1, Ok ["10.0.0.5"; "10.0.0.6"])
        /\ subprocess_run lab (hosts_cmd lab (SUBNET lab)) 120 = Ok out
        /\ parse_hosts out = Ok ["10.0.0.5"; "10.0.0.6"]
        /\ fs w1
           = <["prev_hosts.json" :=
                 File true
                   (Some (JDict [("hosts",
                                  JList [JStr "10.0.0.5"; JStr "10.0.0.6"]);
                                 ("ts", JInt 1700000000)]))]> (fs later)).
Proof.
  split.
  - apply (proj1 snapshot_overwritten lab fresh (fst (ports_detect lab fresh))
             [22; 80; 443]).
    + vm_compute. reflexivity.
    + reflexivity.
  - apply (proj2 snapshot_overwritten lab later (fst (hosts_detect lab later))
             ["10.0.0.5"; "10.0.0.6"]).
    + vm_compute. reflexivity.
    + reflexivity.
Defined.

(** C8. A snapshot that cannot be written ends the run with the error of
    the write: [save_json] raises it, the cycle does not catch it, and
    [main] does not either; for the port file and for the host file. *)
Theorem save_failure_propagates :
  (forall (E : env) (w w0 : world) (cur : list Z),
     ports_detect E w = (w0, Ok cur) ->
     storage E (PREV_PORTS_FILE E) <> Written ->
     exists w1,
       ports_cycle E w = (w1, Raise OSError)
       /\ main E w = (w1, Raise OSError))
  /\ (forall (E : env) (w w1 w2 : world) (cp : list Z) (cur : list string),
        ports_cycle E w = (w1, Ok cp) ->
        hosts_detect E w1 = (w2, Ok cur) ->
        storage E (PREV_HOSTS_FILE E) <> Written ->
        exists w3,
          hosts_cycle E w1 = (w3, Raise OSError)
          /\ main E w = (w3, Raise OSError)).
Proof.
  split.
  - intros E w w0 cur Hd Hst.
    assert (Hc : exists w1, ports_cycle E w = (w1, Raise OSError)).
    { rewrite (ports_cycle_after_detect E w w0 cur Hd). unfold saved.
      destruct (storage E (PREV_PORTS_FILE E)); [congruence|eauto|eauto]. }
    destruct Hc as [w1 Hc]. exists w1. split; [exact Hc|].
    unfold main. apply bind_raise, Hc.
  - intros E w w1 w2 cp cur Hp Hd Hst.
    assert (Hc : exists w3, hosts_cycle E w1 = (w3, Raise OSError)).
    { rewrite (hosts_cycle_after_detect E w1 w2 cur Hd). unfold saved.
      destruct (storage E (PREV_HOSTS_FILE E)); [congruence|eauto|eauto]. }
    destruct Hc as [w3 Hc]. exists w3. split; [exact Hc|].
    unfold main. erewrite bind_ok by exact Hp. apply bind_raise, Hc.
Qed.

(** C4, as the program has it.  A scan that fails is not caught: the
    exception ends [main] where it is raised.  The files are as they were
    at that moment and the log has the command line of the scan as its
    last entry; after a failure of the port scan nothing of the host
    cycle has run, and a failure of the host scan comes after the port
    cycle has returned. *)
Theorem scan_failure_ends_run :
  (forall (E : env) (w : world) (e : exn),
     subprocess_run E (ports_cmd E (TARGET E)) 300 = Raise e ->
     main E w = (logged (Running (ports_cmd E (TARGET E))) w, Raise e))
  /\ (forall (E : env) (w w1 : world) (cp : list Z) (e : exn),
        ports_cycle E w = (w1, Ok cp) ->
        subprocess_run E (hosts_cmd E (SUBNET E)) 120 = Raise e ->
        main E w = (logged (Running (hosts_cmd E (SUBNET E))) w1, Raise e)).
Proof.
  split.
  - intros E w e Hrun. unfold main.
    apply bind_raise, ports_cycle_detect_raises, ports_detect_scan_fails, Hrun.
  - intros E w w1 cp e Hp Hrun. unfold main.
    erewrite bind_ok by exact Hp.
    apply bind_raise, hosts_cycle_detect_raises, hosts_detect_scan_fails, Hrun.
Qed.

(** C9. With a webhook address set, a request that raises is logged as
    an error and a response of any status is logged with its status;
    [send_discord] returns in both cases and leaves the files and the
    clock alone, and a run ends with the same result and the same files
    whatever the endpoint does. *)
Theorem delivery_failure_is_logged (E : env) (a : alert) (w : world) :
  webhook_unset E = false ->
  (forall e, requests_post E (length (posts w)) a = Raise e ->
     send_discord E a w
     = (World (fs w) (log w ++ [WebhookError e]) (calls w ++ [a])
          (posts w ++ [a]) (ticks w), Ok tt))
  /\ (forall status, requests_post E (length (posts w)) a = Ok status ->
        send_discord E a w
        = (World (fs w) (log w ++ [WebhookStatus status]) (calls w ++ [a])
             (posts w ++ [a]) (ticks w), Ok tt))
  /\ (forall E' w0, same_but_delivery E E' ->
        snd (main E w0) = snd (main E' w0)
        /\ fs (fst (main E w0)) = fs (fst (main E' w0))).
Proof.
  intros Hset. split; [|split].
  - intros e He. rewrite send_discord_run. unfold sent. rewrite Hset, He.
    reflexivity.
  - intros status Hs. rewrite send_discord_run. unfold sent. rewrite Hset, Hs.
    reflexivity.
  - intros E' w0. apply main_same_but_delivery.
Qed.

(** C10. Without a webhook address [send_discord] logs the error and
    returns: no request is made, nothing is raised, the files and the
    clock are as before, and the run ends as it does with an address. *)
Theorem unset_webhook_skips_delivery (E : env) (a : alert) (w : world) :
  webhook_unset E = true ->
  send_discord E a w
  = (World (fs w) (log w ++ [WebhookNotSet]) (calls w ++ [a]) (posts w)
       (ticks w), Ok tt)
  /\ level_of WebhookNotSet = ERROR
  /\ (forall E' w0, same_but_delivery E E' ->
        snd (main E w0) = snd (main E' w0)
        /\ fs (fst (main E w0)) = fs (fst (main E' w0))).
Proof.
  intros Hunset. split; [|split].
  - rewrite send_discord_run. unfold sent. rewrite Hunset. reflexivity.
  - reflexivity.
  - intros E' w0. apply main_same_but_delivery.
Qed.

Lemma save_failure_propagates_witness :
  (exists w1,
     ports_cycle read_only fresh = (w1, Raise OSError)
     /\ main read_only fresh = (w1, Raise OSError))
  /\ (exists w3,
        hosts_cycle hosts_read_only (fst (ports_cycle hosts_read_only fresh))
        = (w3, Raise OSError)
        /\ main hosts_read_only fresh = (w3, Raise OSError)).
Proof.
  split.
  - apply (proj1 save_failure_propagates read_only fresh
             (fst (ports_detect read_only fresh)) [22; 80; 443]).
    + vm_compute. reflexivity.
    + discriminate.
  - apply (proj2 save_failure_propagates hosts_read_only fresh
             (fst (ports_cycle hosts_read_only fresh))
             (fst (hosts_detect hosts_read_only
                     (fst (ports_cycle hosts_read_only fresh))))
             [22; 80; 443] ["10.0.0.5"; "10.0.0.6"]).
    + vm_compute. reflexivity.
    + vm_compute. reflexivity.
    + discriminate.
Defined.

Lemma scan_failure_ends_run_witness :
  main port_scan_times_out fresh
  = (logged (Running (ports_cmd lab "10.0.0.5")) fresh, Raise TimeoutExpired)
  /\ main host_scan_fails fresh
     = (logged (Running (hosts_cmd lab "10.0.0.0/24"))
          (fst (ports_cycle host_scan_fails fresh)), Raise OSError).
Proof.
  split.
  - apply (proj1 scan_failure_ends_run port_scan_times_out fresh TimeoutExpired).
    reflexivity.
  - apply (proj2 scan_failure_ends_run host_scan_fails fresh
             (fst (ports_cycle host_scan_fails fresh)) [22; 80; 443] OSError).
    + vm_compute. reflexivity.
    + reflexivity.
Defined.

(** C4 as stated fails: when the port scan times out, the host scan
    would have answered, yet the run ends with the exception, no host
    snapshot is written, the host scan is not started, and no entry of
    the log is an error. *)
Lemma port_scan_failure_stops_host_cycle :
  subprocess_run port_scan_times_out
    (hosts_cmd port_scan_times_out (SUBNET port_scan_times_out)) 120
  = Ok sample_hosts_out
  /\ snd (main port_scan_times_out fresh) = Raise TimeoutExpired
  /\ fs (fst (main port_scan_times_out fresh)) !! "prev_hosts.json" = None
  /\ log (fst (main port_scan_times_out fresh))
     = [Running (ports_cmd port_scan_times_out "10.0.0.5")]
  /\ Forall (fun l => level_of l = INFO)
       (log (fst (main port_scan_times_out fresh))).
Proof.
  split; [reflexivity|]. split; [reflexivity|]. split; [reflexivity|].
  split; [reflexivity|]. vm_compute. repeat constructor.
Qed.

Lemma delivery_failure_is_logged_witness :
  send_discord offline first_alert fresh
  = (World ∅ [WebhookError RequestException] [first_alert] [first_alert] 0,
     Ok tt)
  /\ send_discord rejecting first_alert fresh
     = (World ∅ [WebhookStatus 404] [first_alert] [first_alert] 0, Ok tt).
Proof.
  split.
  - apply (proj1 (delivery_failure_is_logged offline first_alert fresh eq_refl)
             RequestException).
    reflexivity.
  - apply (proj1 (proj2
             (delivery_failure_is_logged rejecting first_alert fresh eq_refl))
             404).
    reflexivity.
Defined.

Lemma unset_webhook_skips_delivery_witness :
  send_discord no_webhook first_alert fresh
  = (World ∅ [WebhookNotSet] [first_alert] [] 0, Ok tt).
Proof.
  apply (proj1 (unset_webhook_skips_delivery no_webhook first_alert fresh eq_refl)).
Defined.

(** ** First run and unchanged run *)

Lemma not_in_prev_empty {T : Type} `{Element T} (cur : list T) :
  not_in_prev (JList []) cur = Ok cur.
Proof.
  unfold not_in_prev. induction cur as [|p cur IH]; [reflexivity|].
  cbn [comprehension]. rewrite IH. reflexivity.
Qed.

Lemma filter_not_in_subset {T : Type} `{EqDecision T} (A B : list T) :
  (forall x, x ∈ B -> x ∈ A) -> filter (fun p => p ∉ A) B = [].
Proof.
  induction B as [|p B IH]; intros Hsub; [reflexivity|].
  rewrite filter_cons, decide_False.
  - apply IH. intros x Hx. apply Hsub. right. exact Hx.
  - intros Hn. apply Hn, Hsub. left.
Qed.

Lemma previous_value (path key : string) (w : world) (v : json) :
  previous path key w = (w, Ok v) ->
  getitem (stored (fs w !! path) (JDict [(key, JList [])])) key = Ok v.
Proof. rewrite previous_run. intros [= Hv]. exact Hv. Qed.

(** C1, as the program has it.  With an empty previous snapshot the port
    cycle raises one alert, the first-scan alert with the full current
    list, and no other.  The host cycle has no first-scan alert: with an
    empty previous snapshot it raises the new-hosts alert with the full
    current list when that list is not empty and nothing when it is, and
    never the disappeared-hosts alert. *)
Theorem first_run_alerts :
  (forall (E : env) (w : world) (out : string) (cur : list Z),
     subprocess_run E (ports_cmd E (TARGET E)) 300 = Ok out ->
     parse_ports out = Ok cur ->
     previous (PREV_PORTS_FILE E) "ports" w = (w, Ok (JList [])) ->
     exists w',
       ports_detect E w = (w', Ok cur)
       /\ calls w' = calls w ++ [FirstScanPorts (TARGET E) cur])
  /\ (forall (E : env) (w : world) (out : string) (cur : list string),
        subprocess_run E (hosts_cmd E (SUBNET E)) 120 = Ok out ->
        parse_hosts out = Ok cur ->
        previous (PREV_HOSTS_FILE E) "hosts" w = (w, Ok (JList [])) ->
        exists w',
          hosts_detect E w = (w', Ok cur)
          /\ calls w'
             = calls w
               ++ (if nonempty cur then [NewHosts (SUBNET E) cur cur] else [])).
Proof.
  split; intros E w out cur Hrun Hparse Hprev; apply previous_value in Hprev.
  - rewrite (ports_detect_run E w out cur cur (JList []) [] Hrun Hparse Hprev
               (not_in_prev_empty cur) eq_refl).
    eexists. split; [reflexivity|].
    rewrite calls_sent_all. reflexivity.
  - rewrite (hosts_detect_run E w out cur cur (JList []) [] Hrun Hparse Hprev
               (not_in_prev_empty cur) eq_refl).
    eexists. split; [reflexivity|].
    rewrite calls_sent_all. unfold hosts_events. simpl.
    rewrite app_nil_r. reflexivity.
Qed.

Lemma first_run_alerts_witness :
  (exists w',
     ports_detect lab fresh = (w', Ok [22; 80; 443])
     /\ calls w' = [] ++ [FirstScanPorts "10.0.0.5" [22; 80; 443]])
  /\ (exists w',
        hosts_detect lab fresh = (w', Ok ["10.0.0.5"; "10.0.0.6"])
        /\ calls w'
           = [] ++ [NewHosts "10.0.0.0/24" ["10.0.0.5"; "10.0.0.6"]
                      ["10.0.0.5"; "10.0.0.6"]]).
Proof.
  split.
  - apply (proj1 first_run_alerts lab fresh sample_ports_out [22; 80; 443]).
    + reflexivity.
    + vm_compute. reflexivity.
    + reflexivity.
  - apply (proj2 first_run_alerts lab fresh sample_hosts_out
             ["10.0.0.5"; "10.0.0.6"]).
    + reflexivity.
    + vm_compute. reflexivity.
    + reflexivity.
Defined.

(** C1 as stated fails for the hosts: with no previous snapshot and two
    hosts up, the host cycle raises no first-observation event and one
    added event. *)
Lemma host_first_run_raises_added :
  previous (PREV_HOSTS_FILE lab) "hosts" fresh = (fresh, Ok (JList []))
  /\ calls (fst (hosts_cycle lab fresh))
     = [NewHosts "10.0.0.0/24" ["10.0.0.5"; "10.0.0.6"]
          ["10.0.0.5"; "10.0.0.6"]]
  /\ ~ (count_kind FirstObservation (calls (fst (hosts_cycle lab fresh))) = 1%nat
        /\ count_kind Added (calls (fst (hosts_cycle lab fresh))) = 0%nat
        /\ count_kind Removed (calls (fst (hosts_cycle lab fresh))) = 0%nat).
Proof.
  split; [reflexivity|]. split; [vm_compute; reflexivity|].
  intros (H1 & _). vm_compute in H1. discriminate.
Qed.

Lemma ports_detect_same (E : env) (w : world) (out : string) (A : list Z)
    (ts : Z) :
  subprocess_run E (ports_cmd E (TARGET E)) 300 = Ok out ->
  parse_ports out = Ok A ->
  fs w !! PREV_PORTS_FILE E
  = Some (File true (Some (snapshot "ports" (JList (map JInt A)) ts))) ->
  ports_detect E w
  = (sent_all E (if nonempty A then [] else [FirstScanPorts (TARGET E) A])
       (logged (Running (ports_cmd E (TARGET E))) w), Ok A).
Proof.
  intros Hrun Hparse Hfile.
  rewrite (ports_detect_run E w out A [] (JList (map JInt A)) [] Hrun Hparse).
  - destruct A; reflexivity.
  - rewrite Hfile. reflexivity.
  - change JInt with (to_json (T := Z)).
    rewrite (not_in_prev_list port_eq_JInt), filter_not_in_subset; auto.
  - change JInt with (to_json (T := Z)).
    rewrite (not_in_current_list port_eq_JInt), filter_not_in_subset; auto.
Qed.

Lemma hosts_detect_same (E : env) (w : world) (out : string) (A : list string)
    (ts : Z) :
  subprocess_run E (hosts_cmd E (SUBNET E)) 120 = Ok out ->
  parse_hosts out = Ok A ->
  fs w !! PREV_HOSTS_FILE E
  = Some (File true (Some (snapshot "hosts" (JList (map JStr A)) ts))) ->
  hosts_detect E w
  = (logged (Running (hosts_cmd E (SUBNET E))) w, Ok A).
Proof.
  intros Hrun Hparse Hfile.
  rewrite (hosts_detect_run E w out A [] (JList (map JStr A)) [] Hrun Hparse).
  - reflexivity.
  - rewrite Hfile. reflexivity.
  - change JStr with (to_json (T := string)).
    rewrite (not_in_prev_list host_eq_JStr), filter_not_in_subset; auto.
  - change JStr with (to_json (T := string)).
    rewrite (not_in_current_list host_eq_JStr), filter_not_in_subset; auto.
Qed.

Lemma put_file_lookup (path : string) (t : option json) (w : world) :
  fs (put_file path t w) !! path
  = Some (File (readable_if_present (fs w !! path)) t).
Proof.
  unfold put_file. simpl. rewrite lookup_insert_eq.
  unfold readable_if_present. destruct (fs w !! path); reflexivity.
Qed.

Lemma calls_saved (E : env) (data : json) (path : string) (w : world) :
  calls (fst (saved E data path w)) = calls w.
Proof. unfold saved. destruct (storage E path); reflexivity. Qed.

Lemma ports_second_cycle (E E' : env) (w w1 : world) (out : string)
    (cur : list Z) :
  ports_cycle E w = (w1, Ok cur) ->
  readable_if_present (fs w !! PREV_PORTS_FILE E) = true ->
  PREV_PORTS_FILE E' = PREV_PORTS_FILE E ->
  subprocess_run E' (ports_cmd E' (TARGET E')) 300 = Ok out ->
  parse_ports out = Ok cur ->
  exists w2 r,
    ports_cycle E' w1 = (w2, r)
    /\ calls w2
       = calls w1
         ++ (if nonempty cur then [] else [FirstScanPorts (TARGET E') cur]).
Proof.
  intros Hfirst Hread Hpath Hrun Hparse.
  destruct (ports_cycle_returns E w w1 cur Hfirst) as (w0 & Hd & Hst & Hw1).
  destruct (ports_detect_frame E w w0 _ Hd) as [Hfs Ht].
  assert (Hfile : fs w1 !! PREV_PORTS_FILE E'
                  = Some (File true
                      (Some (snapshot "ports" (JList (map JInt cur))
                               (time_time E (ticks w0)))))).
  { rewrite Hpath, Hw1, put_file_lookup. unfold ticked. simpl.
    rewrite Hfs, Hread. reflexivity. }
  pose proof (ports_detect_same E' w1 out cur _ Hrun Hparse Hfile) as Hd2.
  rewrite (ports_cycle_after_detect E' w1 _ cur Hd2).
  destruct (saved E' _ _ _) as [w2 r] eqn:Hs.
  exists w2, (match r with Ok _ => Ok cur | Raise e => Raise e end).
  split; [reflexivity|].
  change w2 with (fst (w2, r)). rewrite <- Hs, calls_saved.
  unfold ticked. simpl. rewrite calls_sent_all. reflexivity.
Qed.

Lemma hosts_second_cycle (E E' : env) (w w1 : world) (out : string)
    (cur : list string) :
  hosts_cycle E w = (w1, Ok cur) ->
  readable_if_present (fs w !! PREV_HOSTS_FILE E) = true ->
  PREV_HOSTS_FILE E' = PREV_HOSTS_FILE E ->
  subprocess_run E' (hosts_cmd E' (SUBNET E')) 120 = Ok out ->
  parse_hosts out = Ok cur ->
  exists w2 r, hosts_cycle E' w1 = (w2, r) /\ calls w2 = calls w1.
Proof.
  intros Hfirst Hread Hpath Hrun Hparse.
  destruct (hosts_cycle_returns E w w1 cur Hfirst) as (w0 & Hd & Hst & Hw1).
  destruct (hosts_detect_frame E w w0 _ Hd) as [Hfs Ht].
  assert (Hfile : fs w1 !! PREV_HOSTS_FILE E'
                  = Some (File true
                      (Some (snapshot "hosts" (JList (map JStr cur))
                               (time_time E (ticks w0)))))).
  { rewrite Hpath, Hw1, put_file_lookup. unfold ticked. simpl.
    rewrite Hfs, Hread. reflexivity. }
  pose proof (hosts_detect_same E' w1 out cur _ Hrun Hparse Hfile) as Hd2.
  rewrite (hosts_cycle_after_detect E' w1 _ cur Hd2).
  destruct (saved E' _ _ _) as [w2 r] eqn:Hs.
  exists w2, (match r with Ok _ => Ok cur | Raise e => Raise e end).
  split; [reflexivity|].
  change w2 with (fst (w2, r)). rewrite <- Hs, calls_saved. reflexivity.
Qed.

(** C7.  A cycle whose stored snapshot is a non-empty list and whose
    observation is the same list raises no alert; and a second cycle that
    follows a cycle that returned, reads its file back and observes the
    same list raises no added and no removed event.  Both hold for the
    ports and for the hosts. *)
Theorem no_change_no_event :
  (forall (E : env) (w : world) (out : string) (A : list Z) (ts : Z),
     A <> [] ->
     subprocess_run E (ports_cmd E (TARGET E)) 300 = Ok out ->
     parse_ports out = Ok A ->
     fs w !! PREV_PORTS_FILE E
     = Some (File true (Some (snapshot "ports" (JList (map JInt A)) ts))) ->
     exists w', ports_detect E w = (w', Ok A) /\ calls w' = calls w)
  /\ (forall (E : env) (w : world) (out : string) (A : list string) (ts : Z),
        A <> [] ->
        subprocess_run E (hosts_cmd E (SUBNET E)) 120 = Ok out ->
        parse_hosts out = Ok A ->
        fs w !! PREV_HOSTS_FILE E
        = Some (File true (Some (snapshot "hosts" (JList (map JStr A)) ts))) ->
        exists w', hosts_detect E w = (w', Ok A) /\ calls w' = calls w)
  /\ (forall (E E' : env) (w w1 : world) (out : string) (cur : list Z),
        ports_cycle E w = (w1, Ok cur) ->
        readable_if_present (fs w !! PREV_PORTS_FILE E) = true ->
        PREV_PORTS_FILE E' = PREV_PORTS_FILE E ->
        subprocess_run E' (ports_cmd E' (TARGET E')) 300 = Ok out ->
        parse_ports out = Ok cur ->
        exists w2 r l,
          ports_cycle E' w1 = (w2, r)
          /\ calls w2 = calls w1 ++ l
          /\ count_kind Added l = 0%nat
          /\ count_kind Removed l = 0%nat)
  /\ (forall (E E' : env) (w w1 : world) (out : string) (cur : list string),
        hosts_cycle E w = (w1, Ok cur) ->
        readable_if_present (fs w !! PREV_HOSTS_FILE E) = true ->
        PREV_HOSTS_FILE E' = PREV_HOSTS_FILE E ->
        subprocess_run E' (hosts_cmd E' (SUBNET E')) 120 = Ok out ->
        parse_hosts out = Ok cur ->
        exists w2 r l,
          hosts_cycle E' w1 = (w2, r)
          /\ calls w2 = calls w1 ++ l
          /\ count_kind Added l = 0%nat
          /\ count_kind Removed l = 0%nat).
Proof.
  split; [|split; [|split]].
  - intros E w out A ts HA Hrun Hparse Hfile.
    rewrite (ports_detect_same E w out A ts Hrun Hparse Hfile).
    eexists. split; [reflexivity|].
    rewrite calls_sent_all. destruct A; [congruence|]. simpl. apply app_nil_r.
  - intros E w out A ts HA Hrun Hparse Hfile.
    rewrite (hosts_detect_same E w out A ts Hrun Hparse Hfile).
    eexists. split; reflexivity.
  - intros E E' w w1 out cur Hfirst Hread Hpath Hrun Hparse.
    destruct (ports_second_cycle E E' w w1 out cur Hfirst Hread Hpath Hrun Hparse)
      as (w2 & r & Hc & Hcalls).
    exists w2, r. eexists. split; [exact Hc|]. split; [exact Hcalls|].
    destruct (nonempty cur); split; reflexivity.
  - intros E E' w w1 out cur Hfirst Hread Hpath Hrun Hparse.
    destruct (hosts_second_cycle E E' w w1 out cur Hfirst Hread Hpath Hrun Hparse)
      as (w2 & r & Hc & Hcalls).
    exists w2, r, []. split; [exact Hc|]. split; [|split; reflexivity].
    rewrite app_nil_r. exact Hcalls.
Qed.

Lemma no_change_no_event_witness :
  (exists w2 r l,
     ports_cycle lab (fst (ports_cycle lab fresh)) = (w2, r)
     /\ calls w2 = calls (fst (ports_cycle lab fresh)) ++ l
     /\ count_kind Added l = 0%nat
     /\ count_kind Removed l = 0%nat)
  /\ (exists w2 r l,
        hosts_cycle lab (fst (hosts_cycle lab fresh)) = (w2, r)
        /\ calls w2 = calls (fst (hosts_cycle lab fresh)) ++ l
        /\ count_kind Added l = 0%nat
        /\ count_kind Removed l = 0%nat)
  /\ (exists w',
        ports_detect lab (fst (ports_cycle lab fresh)) = (w', Ok [22; 80; 443])
        /\ calls w' = calls (fst (ports_cycle lab fresh)))
  /\ (exists w',
        hosts_detect lab (fst (hosts_cycle lab fresh))
        = (w', Ok ["10.0.0.5"; "10.0.0.6"])
        /\ calls w' = calls (fst (hosts_cycle lab fresh))).
Proof.
  split; [|split; [|split]].
  - apply (proj1 (proj2 (proj2 no_change_no_event)) lab lab fresh
             (fst (ports_cycle lab fresh)) sample_ports_out [22; 80; 443]).
    + vm_compute. reflexivity.
    + reflexivity.
    + reflexivity.
    + reflexivity.
    + vm_compute. reflexivity.
  - apply (proj2 (proj2 (proj2 no_change_no_event)) lab lab fresh
             (fst (hosts_cycle lab fresh)) sample_hosts_out
             ["10.0.0.5"; "10.0.0.6"]).
    + vm_compute. reflexivity.
    + reflexivity.
    + reflexivity.
    + reflexivity.
    + vm_compute. reflexivity.
  - apply (proj1 no_change_no_event lab (fst (ports_cycle lab fresh))
             sample_ports_out [22; 80; 443] 1700000000).
    + discriminate.
    + reflexivity.
    + vm_compute. reflexivity.
    + vm_compute. reflexivity.
  - apply (proj1 (proj2 no_change_no_event) lab (fst (hosts_cycle lab fresh))
             sample_hosts_out ["10.0.0.5"; "10.0.0.6"] 1700000000).
    + discriminate.
    + reflexivity.
    + vm_compute. reflexivity.
    + vm_compute. reflexivity.
Defined.

(** * Further properties of the program *)

(** ** [sorted(set(l))] *)

Section SortedSetFacts.
Context {A : Type} (cmp : A -> A -> comparison).
Hypothesis cmp_eq : forall x y, cmp x y = Eq -> x = y.
Hypothesis cmp_gt : forall x y, cmp x y = Gt -> cmp y x = Lt.

Lemma insert_sorted_elem (x z : A) (l : list A) :
  z ∈ insert_sorted cmp x l <-> z = x \/ z ∈ l.
Proof.
  induction l as [|y l IH]; simpl.
  - rewrite list_elem_of_singleton, elem_of_nil. tauto.
  - destruct (cmp x y) eqn:Hc.
    + apply cmp_eq in Hc. subst y. rewrite elem_of_cons. tauto.
    + rewrite !elem_of_cons. tauto.
    + rewrite !elem_of_cons, IH. tauto.
Qed.

Lemma sorted_set_elem (z : A) (l : list A) :
  z ∈ sorted_set cmp l <-> z ∈ l.
Proof.
  induction l as [|x l IH]; simpl; [reflexivity|].
  rewrite insert_sorted_elem, elem_of_cons, IH. reflexivity.
Qed.

Lemma insert_sorted_HdRel (y x : A) (l : list A) :
  cmp y x = Lt -> HdRel (fun a b => cmp a b = Lt) y l ->
  HdRel (fun a b => cmp a b = Lt) y (insert_sorted cmp x l).
Proof.
  intros Hyx Hhd. destruct l as [|z l]; simpl.
  - constructor. exact Hyx.
  - destruct (cmp x z); [exact Hhd|constructor; exact Hyx|].
    constructor. inversion Hhd. assumption.
Qed.

Lemma insert_sorted_Sorted (x : A) (l : list A) :
  Sorted (fun a b => cmp a b = Lt) l ->
  Sorted (fun a b => cmp a b = Lt) (insert_sorted cmp x l).
Proof.
  induction l as [|y l IH]; intros Hs; simpl.
  - repeat constructor.
  - destruct (cmp x y) eqn:Hc.
    + exact Hs.
    + constructor; [exact Hs|]. constructor. exact Hc.
    + inversion Hs as [|? ? Hl Hhd]; subst. constructor.
      * apply IH, Hl.
      * apply insert_sorted_HdRel; [apply cmp_gt, Hc|exact Hhd].
Qed.

Lemma sorted_set_Sorted (l : list A) :
  Sorted (fun a b => cmp a b = Lt) (sorted_set cmp l).
Proof.
  induction l as [|x l IH]; simpl; [constructor|].
  apply insert_sorted_Sorted, IH.
Qed.
End SortedSetFacts.

Lemma Z_compare_gt (x y : Z) : (x ?= y) = Gt -> (y ?= x) = Lt.
Proof. intros H. rewrite Z.compare_antisym, H. reflexivity. Qed.

Lemma Z_compare_eq (x y : Z) : (x ?= y) = Eq -> x = y.
Proof. apply Z.compare_eq_iff. Qed.

Lemma string_compare_gt (x y : string) :
  String.compare x y = Gt -> String.compare y x = Lt.
Proof. intros H. rewrite String.compare_antisym, H. reflexivity. Qed.

(** ** Loops that collect *)

(** A loop whose body appends what [f] yields for the item collects, in
    order, what [f] yields for every item. *)
Lemma for_each_append {A B} (f : A -> result (list B))
    (body : A -> list B -> result (list B)) :
  (forall x s, body x s = (l <~ f x ;; Ok (s ++ l))) ->
  forall xs s,
    for_each xs body s = (l <~ for_each xs body [] ;; Ok (s ++ l)).
Proof.
  intros Hb. induction xs as [|x xs IH]; intros s; simpl.
  - rewrite app_nil_r. reflexivity.
  - rewrite !Hb. destruct (f x) as [l|e]; simpl; [|reflexivity].
    rewrite (IH (s ++ l)), (IH l).
    destruct (for_each xs body []) as [r|e]; simpl; [|reflexivity].
    rewrite app_assoc. reflexivity.
Qed.

Lemma for_each_elem {A B} (f : A -> result (list B))
    (body : A -> list B -> result (list B)) :
  (forall x s, body x s = (l <~ f x ;; Ok (s ++ l))) ->
  forall xs s r, for_each xs body s = Ok r ->
  forall h, h ∈ r <-> h ∈ s \/ exists x l, x ∈ xs /\ f x = Ok l /\ h ∈ l.
Proof.
  intros Hb. induction xs as [|x xs IH]; intros s r Hr h; simpl in Hr.
  - injection Hr as <-. split; [auto|].
    intros [Hs|(x & l & Hx & _)]; [exact Hs|]. apply elem_of_nil in Hx. tauto.
  - rewrite Hb in Hr. destruct (f x) as [l|e] eqn:Hf; simpl in Hr; [|discriminate].
    rewrite (IH _ _ Hr h), elem_of_app. split.
    + intros [[Hs|Hl]|(y & l' & Hy & Hfy & Hh)].
      * left. exact Hs.
      * right. exists x, l. split; [left|auto].
      * right. exists y, l'. split; [right; exact Hy|auto].
    + intros [Hs|(y & l' & Hy & Hfy & Hh)]; [auto|].
      apply elem_of_cons in Hy as [->|Hy].
      * rewrite Hf in Hfy. injection Hfy as <-. auto.
      * right. exists y, l'. auto.
Qed.

(** ** What the parsers collect *)

(** X4. [parse_hosts] returns exactly the second words of the lines that
    start with [Host:] and contain [Status: Up]. *)
Theorem parse_hosts_elements (out : string) (hosts : list string) :
  parse_hosts out = Ok hosts ->
  forall h, h ∈ hosts <->
    exists line,
      line ∈ Py.splitlines out
      /\ Py.startswith "Host:" line = true
      /\ Py.contains "Status: Up" line = true
      /\ nth_error (Py.split_ws line) 1 = Some h.
Proof.
  unfold parse_hosts.
  destruct (for_each _ _ _) as [l|e] eqn:Hloop; cbn [rbind]; [|discriminate].
  intros [= <-] h.
  rewrite (sorted_set_elem String.compare String.compare_eq_iff).
  match type of Hloop with
  | for_each _ ?b _ = _ => set (body := b) in Hloop
  end.
  set (f := fun line =>
       if Py.startswith "Host:" line && Py.contains "Status: Up" line
       then ip <~ index (Py.split_ws line) 1 ;; Ok [ip] else Ok []).
  assert (Hb : forall line s, body line s = (l <~ f line ;; Ok (s ++ l))).
  { intros line s. unfold body, f.
    destruct (Py.startswith "Host:" line && Py.contains "Status: Up" line).
    - destruct (index (Py.split_ws line) 1); reflexivity.
    - simpl. rewrite app_nil_r. reflexivity. }
  rewrite (for_each_elem f body Hb _ _ _ Hloop h). unfold f.
  rewrite elem_of_nil. split.
  - intros [[]|(line & l' & Hline & Hf & Hh)].
    destruct (Py.startswith "Host:" line) eqn:Hs; simpl in Hf;
      [|injection Hf as <-; apply elem_of_nil in Hh; tauto].
    destruct (Py.contains "Status: Up" line) eqn:Hc;
      [|injection Hf as <-; apply elem_of_nil in Hh; tauto].
    unfold index in Hf.
    destruct (nth_error (Py.split_ws line) 1) as [ip|] eqn:Hn;
      simpl in Hf; [|discriminate].
    injection Hf as <-. apply list_elem_of_singleton in Hh. subst ip.
    exists line. auto.
  - intros (line & Hline & Hs & Hc & Hn). right.
    exists line, [h]. split; [exact Hline|].
    rewrite Hs, Hc. unfold index. rewrite Hn. simpl.
    split; [reflexivity|]. apply list_elem_of_singleton. reflexivity.
Qed.

Lemma parse_hosts_elements_witness :
  "10.0.0.6" ∈ ["10.0.0.5"; "10.0.0.6"] <->
    exists line,
      line ∈ Py.splitlines sample_hosts_out
      /\ Py.startswith "Host:" line = true
      /\ Py.contains "Status: Up" line = true
      /\ nth_error (Py.split_ws line) 1 = Some "10.0.0.6".
Proof.
  apply (parse_hosts_elements sample_hosts_out ["10.0.0.5"; "10.0.0.6"]).
  vm_compute. reflexivity.
Defined.

Lemma for_each_items_ok {A B} (f : A -> result (list B))
    (body : A -> list B -> result (list B)) :
  (forall x s, body x s = (l <~ f x ;; Ok (s ++ l))) ->
  forall xs s r, for_each xs body s = Ok r ->
  forall x, x ∈ xs -> exists l, f x = Ok l.
Proof.
  intros Hb. induction xs as [|y xs IH]; intros s r Hr x Hx.
  - apply elem_of_nil in Hx. tauto.
  - cbn [for_each] in Hr. rewrite Hb in Hr.
    destruct (f y) as [l|e] eqn:Hf; cbn [rbind] in Hr; [|discriminate].
    apply elem_of_cons in Hx as [->|Hx]; [eauto|].
    eapply IH; eassumption.
Qed.

(** X5. [parse_ports] returns exactly the numbers [int] reads from the
    first field of the entries whose second field is [open], among the
    comma-separated entries that follow the first [Ports:] of a line. *)
Theorem parse_ports_elements (out : string) (ports : list Z) :
  parse_ports out = Ok ports ->
  forall n, n ∈ ports <->
    exists line after entry seg0 seg1 rest,
      line ∈ Py.splitlines out
      /\ Py.contains "Ports:" line = true
      /\ nth_error (Py.split "Ports:" line) 1 = Some after
      /\ entry ∈ Py.split "," (Py.strip after)
      /\ Py.split "/" (Py.strip entry) = seg0 :: seg1 :: rest
      /\ seg1 = "open"
      /\ Py.int seg0 = Some n.
Proof.
  unfold parse_ports.
  destruct (for_each _ _ _) as [l|e] eqn:Hloop; cbn [rbind]; [|discriminate].
  intros [= <-] n.
  rewrite (sorted_set_elem Z.compare Z_compare_eq).
  match type of Hloop with
  | for_each _ ?b _ = _ => set (outer := b) in Hloop
  end.
  set (inner := fun (p : string) (ports : list Z) =>
    match Py.split "/" (Py.strip p) with
    | seg0 :: seg1 :: _ =>
        if String.eqb seg1 "open" then n <~ int_of seg0 ;; Ok (ports ++ [n])
        else Ok ports
    | _ => Ok ports
    end).
  set (fe := fun (p : string) =>
    match Py.split "/" (Py.strip p) with
    | seg0 :: seg1 :: _ =>
        if String.eqb seg1 "open" then n <~ int_of seg0 ;; Ok [n] else Ok []
    | _ => Ok (@nil Z)
    end).
  set (fl := fun (line : string) =>
    if Py.contains "Ports:" line then
      after <~ index (Py.split "Ports:" line) 1 ;;
      for_each (Py.split "," (Py.strip after)) inner []
    else Ok []).
  assert (Hbe : forall p s, inner p s = (l <~ fe p ;; Ok (s ++ l))).
  { intros p s. unfold inner, fe.
    destruct (Py.split "/" (Py.strip p)) as [|seg0 [|seg1 rest]];
      cbn [rbind]; rewrite ?app_nil_r; try reflexivity.
    destruct (String.eqb seg1 "open"); cbn [rbind];
      rewrite ?app_nil_r; try reflexivity.
    destruct (int_of seg0); reflexivity. }
  assert (Hbl : forall line s, outer line s = (l <~ fl line ;; Ok (s ++ l))).
  { intros line s. unfold outer, fl.
    destruct (Py.contains "Ports:" line); cbn [rbind];
      [|rewrite app_nil_r; reflexivity].
    destruct (index (Py.split "Ports:" line) 1) as [after|e]; cbn [rbind];
      [|reflexivity].
    apply (for_each_append fe inner Hbe). }
  rewrite (for_each_elem fl outer Hbl _ _ _ Hloop n), elem_of_nil.
  split.
  - intros [[]|(line & l' & Hline & Hfl & Hn)]. unfold fl in Hfl.
    destruct (Py.contains "Ports:" line) eqn:Hc;
      [|injection Hfl as <-; apply elem_of_nil in Hn; tauto].
    unfold index in Hfl.
    destruct (nth_error (Py.split "Ports:" line) 1) as [after|] eqn:Hafter;
      cbn [rbind] in Hfl; [|discriminate].
    apply (for_each_elem fe inner Hbe _ _ _ Hfl n) in Hn
      as [Hn|(entry & l'' & Hentry & Hfe & Hn)];
      [apply elem_of_nil in Hn; tauto|].
    unfold fe in Hfe.
    destruct (Py.split "/" (Py.strip entry)) as [|seg0 [|seg1 rest]] eqn:Hsegs;
      try (injection Hfe as <-; apply elem_of_nil in Hn; tauto).
    destruct (String.eqb seg1 "open") eqn:Hopen;
      [|injection Hfe as <-; apply elem_of_nil in Hn; tauto].
    unfold int_of in Hfe. destruct (Py.int seg0) as [m|] eqn:Hint;
      cbn [rbind] in Hfe; [|discriminate].
    injection Hfe as <-. apply list_elem_of_singleton in Hn. subst m.
    apply String.eqb_eq in Hopen.
    exists line, after, entry, seg0, seg1, rest. auto 10.
  - intros (line & after & entry & seg0 & seg1 & rest
            & Hline & Hc & Hafter & Hentry & Hsegs & Hopen & Hint).
    right.
    destruct (for_each_items_ok fl outer Hbl _ _ _ Hloop line Hline) as [l' Hfl].
    exists line, l'. split; [exact Hline|]. split; [exact Hfl|].
    unfold fl in Hfl. rewrite Hc in Hfl. unfold index in Hfl.
    rewrite Hafter in Hfl. cbn [rbind] in Hfl.
    apply (for_each_elem fe inner Hbe _ _ _ Hfl n). right.
    exists entry, [n]. split; [exact Hentry|].
    unfold fe. rewrite Hsegs. subst seg1. rewrite String.eqb_refl.
    unfold int_of. rewrite Hint. cbn [rbind].
    split; [reflexivity|]. apply list_elem_of_singleton. reflexivity.
Qed.

Lemma parse_ports_elements_witness :
  443 ∈ [22; 80; 443] <->
    exists line after entry seg0 seg1 rest,
      line ∈ Py.splitlines sample_ports_out
      /\ Py.contains "Ports:" line = true
      /\ nth_error (Py.split "Ports:" line) 1 = Some after
      /\ entry ∈ Py.split "," (Py.strip after)
      /\ Py.split "/" (Py.strip entry) = seg0 :: seg1 :: rest
      /\ seg1 = "open"
      /\ Py.int seg0 = Some 443.
Proof.
  apply (parse_ports_elements sample_ports_out [22; 80; 443]).
  vm_compute. reflexivity.
Defined.

(** ** Text without markers *)

Lemma append_assoc (a b c : string) : (a +:+ b) +:+ c = a +:+ (b +:+ c).
Proof.
  induction a as [|x a IH]; [reflexivity|].
  exact (f_equal (String x) IH).
Qed.

Lemma startswith_self (sub v : string) : Py.startswith sub (sub +:+ v) = true.
Proof.
  induction sub as [|a sub IH]; simpl; [reflexivity|].
  rewrite Ascii.eqb_refl, IH. reflexivity.
Qed.

Lemma contains_intro (sub u v : string) :
  Py.contains sub (u +:+ (sub +:+ v)) = true.
Proof.
  induction u as [|c u IH].
  - change (EmptyString +:+ (sub +:+ v)) with (sub +:+ v).
    destruct (sub +:+ v) eqn:Hs; cbn [Py.contains];
      rewrite <- Hs, startswith_self; reflexivity.
  - change (String c u +:+ (sub +:+ v)) with (String c (u +:+ (sub +:+ v))).
    cbn [Py.contains]. rewrite IH. apply orb_true_r.
Qed.

Lemma contains_substring (sub u line v : string) :
  Py.contains sub line = true -> Py.contains sub (u +:+ (line +:+ v)) = true.
Proof.
  intros Hc. apply contains_append in Hc as (a & b & ->).
  rewrite !append_assoc, <- (append_assoc u a).
  apply contains_intro.
Qed.

Lemma splitlines_first_prefix (s l : string) (ls : list string) :
  Py.splitlines s = l :: ls -> exists v, s = l +:+ v.
Proof.
  revert l ls. induction s as [|c s IH]; intros l ls Hs; [discriminate|].
  cbn [Py.splitlines] in Hs. destruct (Py.is_linebreak c).
  - injection Hs as <- _. exists (String c s). reflexivity.
  - destruct (Py.splitlines s) as [|l' ls'] eqn:Hl.
    + injection Hs as <- _. exists s. reflexivity.
    + injection Hs as <- _. destruct (IH l' ls' eq_refl) as [v ->].
      exists v. reflexivity.
Qed.

(** Every line of a text is a piece of the text. *)
Lemma splitlines_substring (n : nat) (s line : string) :
  (String.length s <= n)%nat -> line ∈ Py.splitlines s ->
  exists u v, s = u +:+ (line +:+ v).
Proof.
  revert s. induction n as [|n IH]; intros s Hn Hin.
  - destruct s; [apply elem_of_nil in Hin; tauto|simpl in Hn; lia].
  - destruct s as [|c s]; [apply elem_of_nil in Hin; tauto|].
    simpl in Hn. cbn [Py.splitlines] in Hin. destruct (Py.is_linebreak c).
    + apply elem_of_cons in Hin as [->|Hin].
      { exists EmptyString, (String c s). reflexivity. }
      destruct s as [|d s]; [apply elem_of_nil in Hin; tauto|].
      destruct (Ascii.eqb c "013" && Ascii.eqb d "010").
      * destruct (IH s ltac:(simpl in Hn; lia) Hin) as (u & v & ->).
        exists (String c (String d u)), v. reflexivity.
      * destruct (IH (String d s) ltac:(lia) Hin) as (u & v & Hs).
        exists (String c u), v. exact (f_equal (String c) Hs).
    + destruct (Py.splitlines s) as [|l ls] eqn:Hl.
      * apply list_elem_of_singleton in Hin. subst line.
        exists EmptyString, s. reflexivity.
      * apply elem_of_cons in Hin as [->|Hin].
        { destruct (splitlines_first_prefix s l ls Hl) as [v ->].
          exists EmptyString, v. reflexivity. }
        destruct (IH s ltac:(lia)) as (u & v & ->).
        { rewrite Hl. right. exact Hin. }
        exists (String c u), v. reflexivity.
Qed.

Lemma contains_line (sub s line : string) :
  line ∈ Py.splitlines s -> Py.contains sub line = true ->
  Py.contains sub s = true.
Proof.
  intros Hin Hc.
  destruct (splitlines_substring (String.length s) s line (le_n _) Hin)
    as (u & v & ->).
  apply contains_substring, Hc.
Qed.

Lemma for_each_skips {A S} (body : A -> S -> result S) (xs : list A) (s : S) :
  (forall x, x ∈ xs -> body x s = Ok s) -> for_each xs body s = Ok s.
Proof.
  induction xs as [|x xs IH]; intros Hb; simpl; [reflexivity|].
  rewrite Hb by left. simpl. apply IH. intros y Hy. apply Hb. right. exact Hy.
Qed.

(** X6. A text in which [Ports:] does not occur gives no ports; a text in
    which [Host:] or [Status: Up] does not occur gives no hosts (so does
    the empty text). *)
Theorem parsers_without_markers (out : string) :
  (Py.contains "Ports:" out = false -> parse_ports out = Ok [])
  /\ (Py.contains "Host:" out = false \/ Py.contains "Status: Up" out = false ->
      parse_hosts out = Ok []).
Proof.
  split.
  - intros Hno. unfold parse_ports. rewrite for_each_skips; [reflexivity|].
    intros line Hline.
    destruct (Py.contains "Ports:" line) eqn:Hc; [|reflexivity].
    rewrite (contains_line _ _ _ Hline Hc) in Hno. discriminate.
  - intros Hno. unfold parse_hosts. rewrite for_each_skips; [reflexivity|].
    intros line Hline.
    destruct (Py.startswith "Host:" line) eqn:Hs; [|reflexivity].
    destruct (Py.contains "Status: Up" line) eqn:Hc; [|reflexivity].
    exfalso. destruct Hno as [Hno|Hno].
    + assert (Hh : Py.contains "Host:" line = true).
      { destruct line; cbn [Py.contains]; rewrite Hs; reflexivity. }
      rewrite (contains_line _ _ _ Hline Hh) in Hno. discriminate.
    + rewrite (contains_line _ _ _ Hline Hc) in Hno. discriminate.
Qed.

Lemma parsers_without_markers_witness :
  parse_ports sample_hosts_out = Ok [] /\ parse_hosts "" = Ok [].
Proof.
  split.
  - apply (proj1 (parsers_without_markers sample_hosts_out)).
    vm_compute. reflexivity.
  - apply (proj2 (parsers_without_markers "")). left. reflexivity.
Defined.

(** ** Saving and loading *)

(** X7. What [save_json] writes, [load_json] reads back: after a write
    that succeeds to a file that can be read, loading that path returns
    the data written, whatever the default; loading any other path
    returns what it returned before. *)
Theorem save_then_load (E : env) (data default : json) (path : string)
    (w : world) :
  storage E path = Written ->
  readable_if_present (fs w !! path) = true ->
  exists w1,
    save_json E data path w = (w1, Ok tt)
    /\ load_json path default w1 = (w1, Ok data)
    /\ forall other d, other <> path ->
         snd (load_json other d w1) = snd (load_json other d w).
Proof.
  intros Hst Hread. unfold save_json. rewrite Hst.
  eexists. split; [reflexivity|]. split.
  - rewrite load_json_run, put_file_lookup, Hread. reflexivity.
  - intros other d Hne. rewrite !load_json_run. simpl.
    rewrite lookup_insert_ne by congruence. reflexivity.
Qed.

Lemma save_then_load_witness :
  exists w1,
    save_json lab (JList [JInt 22]) "prev_ports.json" fresh = (w1, Ok tt)
    /\ load_json "prev_ports.json" JNull w1 = (w1, Ok (JList [JInt 22]))
    /\ forall other d, other <> "prev_ports.json" ->
         snd (load_json other d w1) = snd (load_json other d fresh).
Proof.
  apply (save_then_load lab (JList [JInt 22]) JNull "prev_ports.json" fresh);
    reflexivity.
Defined.

(** X8. A write that fails raises [OSError].  When [open] failed the
    files are as before; when the write failed after [open], the file is
    left with text that is not JSON and the next load of that path
    returns the default. *)
Theorem failed_save (E : env) (data default : json) (path : string) (w : world) :
  storage E path <> Written ->
  exists w1,
    save_json E data path w = (w1, Raise OSError)
    /\ (storage E path = OpenFails -> w1 = w)
    /\ (storage E path = DumpFails ->
        load_json path default w1 = (w1, Ok default)).
Proof.
  intros Hst. unfold save_json.
  destruct (storage E path) eqn:Hs; [congruence| |].
  - exists w. split; [reflexivity|]. split; [reflexivity|discriminate].
  - eexists. split; [reflexivity|]. split; [discriminate|]. intros _.
    rewrite load_json_run, put_file_lookup. unfold stored.
    destruct (readable_if_present (fs w !! path)); reflexivity.
Qed.

Lemma failed_save_witness :
  exists w1,
    save_json hosts_read_only (JDict []) "prev_hosts.json" fresh
    = (w1, Raise OSError)
    /\ (storage hosts_read_only "prev_hosts.json" = OpenFails -> w1 = fresh)
    /\ (storage hosts_read_only "prev_hosts.json" = DumpFails ->
        load_json "prev_hosts.json" JNull w1 = (w1, Ok JNull)).
Proof.
  apply (failed_save hosts_read_only (JDict []) JNull "prev_hosts.json" fresh).
  discriminate.
Defined.

(** ** A stored record of another shape *)





(** ** Alerts of a later run *)

Lemma nonempty_map {A B} (f : A -> B) (l : list A) :
  nonempty (map f l) = nonempty l.
Proof. destruct l; reflexivity. Qed.

(** X10. With a stored list [A] the cycle raises, in this order, the
    new-elements alert with the current elements not in [A] when there
    are any, and the gone-elements alert with the elements of [A] not
    current when there are any; every alert carries the full current
    list.  (For the ports [A] is not empty; an empty [A] is the first
    run.) *)
Theorem incremental_alerts :
  (forall (E : env) (w : world) (out : string) (cur A : list Z),
     subprocess_run E (ports_cmd E (TARGET E)) 300 = Ok out ->
     parse_ports out = Ok cur ->
     previous (PREV_PORTS_FILE E) "ports" w = (w, Ok (JList (map JInt A))) ->
     A <> [] ->
     exists w',
       ports_detect E w = (w', Ok cur)
       /\ calls w'
          = calls w
            ++ (if nonempty (filter (fun p => p ∉ A) cur)
                then [NewPorts (TARGET E) (filter (fun p => p ∉ A) cur) cur]
                else [])
            ++ (if nonempty (filter (fun p => p ∉ cur) A)
                then [PortsClosed (TARGET E)
                        (map JInt (filter (fun p => p ∉ cur) A)) cur]
                else []))
  /\ (forall (E : env) (w : world) (out : string) (cur A : list string),
        subprocess_run E (hosts_cmd E (SUBNET E)) 120 = Ok out ->
        parse_hosts out = Ok cur ->
        previous (PREV_HOSTS_FILE E) "hosts" w = (w, Ok (JList (map JStr A))) ->
        exists w',
          hosts_detect E w = (w', Ok cur)
          /\ calls w'
             = calls w
               ++ (if nonempty (filter (fun p => p ∉ A) cur)
                   then [NewHosts (SUBNET E) (filter (fun p => p ∉ A) cur) cur]
                   else [])
               ++ (if nonempty (filter (fun p => p ∉ cur) A)
                   then [HostsDisappeared (SUBNET E)
                           (map JStr (filter (fun p => p ∉ cur) A)) cur]
                   else [])).
Proof.
  split.
  - intros E w out cur A Hrun Hparse Hprev HA. apply previous_value in Hprev.
    rewrite (ports_detect_run E w out cur _ _ _ Hrun Hparse Hprev
               (not_in_prev_list port_eq_JInt A cur)
               (not_in_current_list port_eq_JInt A cur)).
    eexists. split; [reflexivity|].
    rewrite calls_sent_all. unfold ports_events.
    change (@to_json Z port_element) with JInt.
    rewrite nonempty_map. destruct A; [congruence|]. reflexivity.
  - intros E w out cur A Hrun Hparse Hprev. apply previous_value in Hprev.
    rewrite (hosts_detect_run E w out cur _ _ _ Hrun Hparse Hprev
               (not_in_prev_list host_eq_JStr A cur)
               (not_in_current_list host_eq_JStr A cur)).
    eexists. split; [reflexivity|].
    rewrite calls_sent_all. unfold hosts_events.
    change (@to_json string host_element) with JStr.
    rewrite nonempty_map. reflexivity.
Qed.

Lemma incremental_alerts_witness :
  (exists w',
     ports_detect lab later = (w', Ok [22; 80; 443])
     /\ calls w'
        = [] ++ [NewPorts "10.0.0.5" [80; 443] [22; 80; 443]]
             ++ [PortsClosed "10.0.0.5" [JInt 25] [22; 80; 443]])
  /\ (exists w',
        hosts_detect lab later = (w', Ok ["10.0.0.5"; "10.0.0.6"])
        /\ calls w'
           = [] ++ [NewHosts "10.0.0.0/24" ["10.0.0.6"] ["10.0.0.5"; "10.0.0.6"]]
                ++ [HostsDisappeared "10.0.0.0/24" [JStr "10.0.0.9"]
                      ["10.0.0.5"; "10.0.0.6"]]).
Proof.
  split.
  - apply (proj1 incremental_alerts lab later sample_ports_out [22; 80; 443]
             [22; 25]).
    + reflexivity.
    + vm_compute. reflexivity.
    + vm_compute. reflexivity.
    + discriminate.
  - apply (proj2 incremental_alerts lab later sample_hosts_out
             ["10.0.0.5"; "10.0.0.6"] ["10.0.0.5"; "10.0.0.9"]).
    + reflexivity.
    + vm_compute. reflexivity.
    + vm_compute. reflexivity.
Defined.

(** ** Alerts and requests of a run *)

Lemma posts_sent_all (E : env) (l : list alert) (w : world) :
  posts (sent_all E l w) = posts w ++ (if webhook_unset E then [] else l).
Proof.
  revert w. induction l as [|a l IH]; intros w; simpl.
  - destruct (webhook_unset E); symmetry; apply app_nil_r.
  - rewrite IH. unfold sent.
    destruct (webhook_unset E); simpl; [reflexivity|].
    rewrite <- app_assoc. reflexivity.
Qed.

Lemma ports_events_length (target : string) (prev : json) (cur new : list Z)
    (closed : list json) :
  (length (ports_events target prev cur new closed) <= 2)%nat.
Proof.
  unfold ports_events.
  destruct (negb (truthy prev)), (nonempty new), (nonempty closed); simpl; lia.
Qed.

Lemma hosts_events_length (subnet : string) (cur new : list string)
    (gone : list json) :
  (length (hosts_events subnet cur new gone) <= 2)%nat.
Proof.
  unfold hosts_events. destruct (nonempty new), (nonempty gone); simpl; lia.
Qed.

Lemma raised_sent_all (E : env) (n : nat) (l : list alert) (log' : list log_entry)
    (w : world) :
  (length l <= n)%nat ->
  raised E n w
    (sent_all E l (World (fs w) log' (calls w) (posts w) (ticks w))).
Proof.
  intros Hl. exists l. split; [exact Hl|].
  rewrite calls_sent_all, posts_sent_all. split; reflexivity.
Qed.

Lemma raised_trans (E : env) (n m : nat) (w1 w2 w3 : world) :
  raised E n w1 w2 -> raised E m w2 w3 -> raised E (n + m) w1 w3.
Proof.
  intros (l1 & Hn & Hc1 & Hp1) (l2 & Hm & Hc2 & Hp2). exists (l1 ++ l2).
  split; [rewrite length_app; lia|]. split.
  - rewrite Hc2, Hc1, app_assoc. reflexivity.
  - rewrite Hp2, Hp1. destruct (webhook_unset E).
    + rewrite !app_nil_r. reflexivity.
    + rewrite app_assoc. reflexivity.
Qed.

Lemma raised_saved (E : env) (n : nat) (data : json) (path : string)
    (w w0 : world) :
  raised E n w w0 -> raised E n w (fst (saved E data path (ticked w0))).
Proof.
  intros (l & Hn & Hc & Hp). exists l. split; [exact Hn|].
  unfold saved. destruct (storage E path); simpl; auto.
Qed.

Lemma ports_detect_raised (E : env) (w : world) :
  raised E 2 w (fst (ports_detect E w)).
Proof.
  unfold ports_detect, run_nmap_ports, bind, logging, lift, ret. simpl.
  run_detect;
    first [ apply raised_sent_all, ports_events_length
          | apply (raised_sent_all E 2 []); simpl; lia ].
Qed.

Lemma hosts_detect_raised (E : env) (w : world) :
  raised E 2 w (fst (hosts_detect E w)).
Proof.
  unfold hosts_detect, run_nmap_hosts, bind, logging, lift, ret. simpl.
  run_detect;
    first [ apply raised_sent_all, hosts_events_length
          | apply (raised_sent_all E 2 []); simpl; lia ].
Qed.

Lemma ports_cycle_raised (E : env) (w : world) :
  raised E 2 w (fst (ports_cycle E w)).
Proof.
  pose proof (ports_detect_raised E w) as Hd.
  destruct (ports_detect E w) as [w0 [cur|e]] eqn:Hdet.
  - rewrite (ports_cycle_after_detect E w w0 cur Hdet).
    pose proof (raised_saved E 2
      (snapshot "ports" (JList (map JInt cur)) (time_time E (ticks w0)))
      (PREV_PORTS_FILE E) w w0 Hd) as Hs.
    destruct (saved E _ _ _). exact Hs.
  - rewrite (ports_cycle_detect_raises E w w0 e Hdet). exact Hd.
Qed.

Lemma hosts_cycle_raised (E : env) (w : world) :
  raised E 2 w (fst (hosts_cycle E w)).
Proof.
  pose proof (hosts_detect_raised E w) as Hd.
  destruct (hosts_detect E w) as [w0 [cur|e]] eqn:Hdet.
  - rewrite (hosts_cycle_after_detect E w w0 cur Hdet).
    pose proof (raised_saved E 2
      (snapshot "hosts" (JList (map JStr cur)) (time_time E (ticks w0)))
      (PREV_HOSTS_FILE E) w w0 Hd) as Hs.
    destruct (saved E _ _ _). exact Hs.
  - rewrite (hosts_cycle_detect_raises E w w0 e Hdet). exact Hd.
Qed.

(** X11. Whatever happens in a run, it raises at most four alerts; with
    a webhook address each of them is handed to [requests.post] once, in
    the order raised, and without one no request is made at all. *)
Theorem run_alert_accounting (E : env) (w : world) :
  exists l,
    (length l <= 4)%nat
    /\ calls (fst (main E w)) = calls w ++ l
    /\ posts (fst (main E w))
       = posts w ++ (if webhook_unset E then [] else l).
Proof.
  change (raised E (2 + 2) w (fst (main E w))).
  pose proof (ports_cycle_raised E w) as Hp. unfold main, bind.
  destruct (ports_cycle E w) as [w1 [cp|e]]; simpl in Hp |- *.
  - pose proof (hosts_cycle_raised E w1) as Hh.
    destruct (hosts_cycle E w1) as [w2 [ch|e]]; simpl in Hh |- *.
    + destruct Hh as (l2 & Hl2 & Hc2 & Hp2).
      apply (raised_trans E 2 2 w w1 _ Hp). exists l2. auto.
    + apply (raised_trans E 2 2 w w1 w2 Hp Hh).
  - destruct Hp as (l & Hl & Hc & Hpo). exists l. split; [lia|auto].
Qed.

(** ** The files of a run *)

Lemma fs_saved_other (E : env) (data : json) (path p : string) (w : world) :
  p <> path -> fs (fst (saved E data path w)) !! p = fs w !! p.
Proof.
  intros Hne. unfold saved, put_file.
  destruct (storage E path); simpl; rewrite ?lookup_insert_ne by congruence;
    reflexivity.
Qed.

Lemma ports_cycle_other_files (E : env) (w : world) (p : string) :
  p <> PREV_PORTS_FILE E -> fs (fst (ports_cycle E w)) !! p = fs w !! p.
Proof.
  intros Hne. destruct (ports_detect E w) as [w0 [cur|e]] eqn:Hd;
    destruct (ports_detect_frame E w w0 _ Hd) as [Hfs _].
  - rewrite (ports_cycle_after_detect E w w0 cur Hd).
    pose proof (fs_saved_other E
      (snapshot "ports" (JList (map JInt cur)) (time_time E (ticks w0)))
      (PREV_PORTS_FILE E) p (ticked w0) Hne) as Hs.
    destruct (saved E _ _ _). simpl in *. rewrite Hs, Hfs. reflexivity.
  - rewrite (ports_cycle_detect_raises E w w0 e Hd). simpl. rewrite Hfs.
    reflexivity.
Qed.

Lemma hosts_cycle_other_files (E : env) (w : world) (p : string) :
  p <> PREV_HOSTS_FILE E -> fs (fst (hosts_cycle E w)) !! p = fs w !! p.
Proof.
  intros Hne. destruct (hosts_detect E w) as [w0 [cur|e]] eqn:Hd;
    destruct (hosts_detect_frame E w w0 _ Hd) as [Hfs _].
  - rewrite (hosts_cycle_after_detect E w w0 cur Hd).
    pose proof (fs_saved_other E
      (snapshot "hosts" (JList (map JStr cur)) (time_time E (ticks w0)))
      (PREV_HOSTS_FILE E) p (ticked w0) Hne) as Hs.
    destruct (saved E _ _ _). simpl in *. rewrite Hs, Hfs. reflexivity.
  - rewrite (hosts_cycle_detect_raises E w w0 e Hd). simpl. rewrite Hfs.
    reflexivity.
Qed.

(** X12. Of the snapshot store (the files the program opens itself;
    the log file is written by the logging handlers and is the [log]),
    a run writes only its two snapshot files, however it ends; and each
    cycle leaves every file of the store but its own alone, so the host
    cycle does not disturb the port record nor the port cycle the host
    record when the two paths differ. *)
Theorem run_writes_only_snapshot_files (E : env) (w : world) (p : string) :
  (p <> PREV_PORTS_FILE E -> fs (fst (ports_cycle E w)) !! p = fs w !! p)
  /\ (p <> PREV_HOSTS_FILE E -> fs (fst (hosts_cycle E w)) !! p = fs w !! p)
  /\ (p <> PREV_PORTS_FILE E -> p <> PREV_HOSTS_FILE E ->
      fs (fst (main E w)) !! p = fs w !! p).
Proof.
  split; [apply ports_cycle_other_files|].
  split; [apply hosts_cycle_other_files|].
  intros Hp Hh. unfold main, bind.
  pose proof (ports_cycle_other_files E w p Hp) as H1.
  destruct (ports_cycle E w) as [w1 [cp|e]]; simpl in H1 |- *; [|exact H1].
  pose proof (hosts_cycle_other_files E w1 p Hh) as H2.
  destruct (hosts_cycle E w1) as [w2 [ch|e]]; simpl in H2 |- *;
    rewrite H2, H1; reflexivity.
Qed.

Lemma run_writes_only_snapshot_files_witness :
  fs (fst (main lab later)) !! "prev_other.json"
  = fs later !! "prev_other.json"
  /\ fs (fst (hosts_cycle lab later)) !! "prev_ports.json"
     = fs later !! "prev_ports.json".
Proof.
  split.
  - apply (proj2 (proj2
             (run_writes_only_snapshot_files lab later "prev_other.json")));
      discriminate.
  - apply (proj1 (proj2
             (run_writes_only_snapshot_files lab later "prev_ports.json"))).
    discriminate.
Defined.

(** ** A run that returns *)

(** X13. A run returns only when both scans answered, both outputs
    parsed and both snapshots were written.  Then the host record is the
    object [{"hosts": hosts, "ts": t}] with the hosts parsed from the
    host scan, the port record (at a different path) is
    [{"ports": ports, "ts": t}] with the ports parsed from the port
    scan, each with the time of its write, and the last log entry counts
    the two lists. *)
Theorem completed_run (E : env) (w w' : world) :
  main E w = (w', Ok tt) ->
  exists out_ports out_hosts cp ch,
    subprocess_run E (ports_cmd E (TARGET E)) 300 = Ok out_ports
    /\ parse_ports out_ports = Ok cp
    /\ subprocess_run E (hosts_cmd E (SUBNET E)) 120 = Ok out_hosts
    /\ parse_hosts out_hosts = Ok ch
    /\ storage E (PREV_PORTS_FILE E) = Written
    /\ storage E (PREV_HOSTS_FILE E) = Written
    /\ text <$> (fs w' !! PREV_HOSTS_FILE E)
       = Some (Some (JDict [("hosts", JList (map JStr ch));
                            ("ts", JInt (time_time E (S (ticks w))))]))
    /\ (PREV_PORTS_FILE E <> PREV_HOSTS_FILE E ->
        text <$> (fs w' !! PREV_PORTS_FILE E)
        = Some (Some (JDict [("ports", JList (map JInt cp));
                             ("ts", JInt (time_time E (ticks w)))])))
    /\ last (log w') = Some (ScanCompleted (length cp) (length ch)).
Proof.
  unfold main, bind. intros Hmain.
  destruct (ports_cycle E w) as [w1 [cp|e]] eqn:Hp; [|discriminate].
  destruct (hosts_cycle E w1) as [w2 [ch|e]] eqn:Hh; [|discriminate].
  injection Hmain as <-.
  destruct (ports_cycle_returns E w w1 cp Hp) as (w0 & Hdp & Hsp & Hw1).
  destruct (hosts_cycle_returns E w1 w2 ch Hh) as (w0' & Hdh & Hsh & Hw2).
  destruct (ports_detect_returns E w w0 cp Hdp) as (outp & Hrp & Hpp).
  destruct (hosts_detect_returns E w1 w0' ch Hdh) as (outh & Hrh & Hph).
  destruct (ports_detect_frame E w w0 _ Hdp) as [Hfs0 Ht0].
  destruct (hosts_detect_frame E w1 w0' _ Hdh) as [Hfs1 Ht1].
  assert (Hticks : ticks w0' = S (ticks w)).
  { rewrite Ht1, Hw1. simpl. rewrite Ht0. reflexivity. }
  exists outp, outh, cp, ch. repeat (split; [assumption|]).
  split; [|split].
  - simpl. rewrite Hw2, put_file_lookup, Hticks. reflexivity.
  - intros Hne. simpl. rewrite Hw2. unfold put_file at 1. simpl.
    rewrite lookup_insert_ne by congruence.
    rewrite Hfs1, Hw1, put_file_lookup, Ht0. reflexivity.
  - simpl. apply last_snoc.
Qed.

Lemma completed_run_witness :
  exists out_ports out_hosts cp ch,
    subprocess_run lab (ports_cmd lab (TARGET lab)) 300 = Ok out_ports
    /\ parse_ports out_ports = Ok cp
    /\ subprocess_run lab (hosts_cmd lab (SUBNET lab)) 120 = Ok out_hosts
    /\ parse_hosts out_hosts = Ok ch
    /\ storage lab (PREV_PORTS_FILE lab) = Written
    /\ storage lab (PREV_HOSTS_FILE lab) = Written
    /\ text <$> (fs (fst (main lab fresh)) !! PREV_HOSTS_FILE lab)
       = Some (Some (JDict [("hosts", JList (map JStr ch));
                            ("ts", JInt (time_time lab (S (ticks fresh))))]))
    /\ (PREV_PORTS_FILE lab <> PREV_HOSTS_FILE lab ->
        text <$> (fs (fst (main lab fresh)) !! PREV_PORTS_FILE lab)
        = Some (Some (JDict [("ports", JList (map JInt cp));
                             ("ts", JInt (time_time lab (ticks fresh)))])))
    /\ last (log (fst (main lab fresh)))
       = Some (ScanCompleted (length cp) (length ch)).
Proof.
  apply (completed_run lab fresh (fst (main lab fresh))).
  vm_compute. reflexivity.
Defined.

(** ** One list for one set *)

Lemma string_compare_refl (a : string) : String.compare a a = Eq.
Proof.
  induction a as [|x a IH]; simpl; [reflexivity|].
  unfold Ascii.compare. rewrite N.compare_refl. exact IH.
Qed.

Lemma string_lt_trans (a b c : string) :
  String.compare a b = Lt -> String.compare b c = Lt -> String.compare a c = Lt.
Proof.
  revert b c. induction a as [|x a IH]; intros [|y b] [|z c]; simpl;
    try discriminate; try reflexivity.
  destruct (Ascii.compare x y) eqn:Hxy; try discriminate;
    destruct (Ascii.compare y z) eqn:Hyz; try discriminate; intros H1 H2.
  - apply Ascii.compare_eq_iff in Hxy, Hyz. subst y z.
    unfold Ascii.compare. rewrite N.compare_refl. eapply IH; eassumption.
  - apply Ascii.compare_eq_iff in Hxy. subst y. rewrite Hyz. reflexivity.
  - apply Ascii.compare_eq_iff in Hyz. subst z. rewrite Hxy. reflexivity.
  - unfold Ascii.compare in *. rewrite N.compare_lt_iff in *.
    assert (Hxz : (N_of_ascii x < N_of_ascii z)%N) by lia.
    apply N.compare_lt_iff in Hxz. rewrite Hxz. reflexivity.
Qed.

Section Canonical.
Context {A : Type} (lt : A -> A -> Prop).
Hypothesis lt_irrefl : forall x, ~ lt x x.
Hypothesis lt_trans : forall x y z, lt x y -> lt y z -> lt x z.

Lemma StronglySorted_eq (l1 l2 : list A) :
  StronglySorted lt l1 -> StronglySorted lt l2 ->
  (forall x, x ∈ l1 <-> x ∈ l2) -> l1 = l2.
Proof.
  intros H1. revert l2.
  induction H1 as [|a l1 Hs1 IH Ha]; intros l2 H2 Hsame.
  - destruct l2 as [|b l2]; [reflexivity|].
    exfalso. eapply not_elem_of_nil, Hsame. left.
  - destruct H2 as [|b l2 Hs2 Hb].
    + exfalso. eapply not_elem_of_nil, Hsame. left.
    + rewrite Forall_forall in Ha, Hb.
      assert (Hab : a = b).
      { assert (Hin1 : a ∈ b :: l2) by (apply Hsame; left).
        assert (Hin2 : b ∈ a :: l1) by (apply Hsame; left).
        apply elem_of_cons in Hin1 as [?|Hin1]; [assumption|].
        apply elem_of_cons in Hin2 as [?|Hin2]; [congruence|].
        exfalso. apply (lt_irrefl a). eauto. }
      subst b. f_equal. apply IH; [exact Hs2|].
      intros x. split; intros Hx.
      * assert (Hx' : x ∈ a :: l2) by (apply Hsame; right; exact Hx).
        apply elem_of_cons in Hx' as [->|?]; [|assumption].
        exfalso. apply (lt_irrefl a). auto.
      * assert (Hx' : x ∈ a :: l1) by (apply Hsame; right; exact Hx).
        apply elem_of_cons in Hx' as [->|?]; [|assumption].
        exfalso. apply (lt_irrefl a). auto.
Qed.
End Canonical.

Lemma parse_ports_sorted (out : string) (ports : list Z) :
  parse_ports out = Ok ports -> StronglySorted Z.lt ports.
Proof.
  unfold parse_ports.
  destruct (for_each _ _ _) as [l|e]; cbn [rbind]; [|discriminate].
  intros [= <-].
  apply Sorted_StronglySorted; [intros a b c; apply Z.lt_trans|].
  apply (sorted_set_Sorted Z.compare Z_compare_gt).
Qed.

Lemma parse_hosts_sorted (out : string) (hosts : list string) :
  parse_hosts out = Ok hosts ->
  StronglySorted (fun a b => String.compare a b = Lt) hosts.
Proof.
  unfold parse_hosts.
  destruct (for_each _ _ _) as [l|e]; cbn [rbind]; [|discriminate].
  intros [= <-].
  apply Sorted_StronglySorted; [intros a b c; apply string_lt_trans|].
  apply (sorted_set_Sorted String.compare string_compare_gt).
Qed.

Lemma StronglySorted_NoDup {A} (lt : A -> A -> Prop) (l : list A) :
  (forall x, ~ lt x x) -> StronglySorted lt l -> NoDup l.
Proof.
  intros Hirr Hs. induction Hs as [|a l Hl IH Hall]; constructor; [|exact IH].
  intros Hin. rewrite Forall_forall in Hall. apply (Hirr a), Hall, Hin.
Qed.

(** X3. What the parsers return is in strictly increasing order, ports
    by value and addresses by code points, so no element occurs twice. *)
Theorem parsers_return_increasing :
  (forall out ports, parse_ports out = Ok ports ->
     StronglySorted Z.lt ports /\ NoDup ports)
  /\ (forall out hosts, parse_hosts out = Ok hosts ->
        StronglySorted (fun a b => String.compare a b = Lt) hosts
        /\ NoDup hosts).
Proof.
  split.
  - intros out ports Hp. apply parse_ports_sorted in Hp.
    split; [exact Hp|].
    eapply StronglySorted_NoDup; [apply Z.lt_irrefl|exact Hp].
  - intros out hosts Hp. apply parse_hosts_sorted in Hp.
    split; [exact Hp|].
    eapply StronglySorted_NoDup; [|exact Hp].
    intros x Hx. rewrite string_compare_refl in Hx. discriminate.
Qed.

Lemma parsers_return_increasing_witness :
  (StronglySorted Z.lt [22; 80; 443] /\ NoDup [22; 80; 443])
  /\ (StronglySorted (fun a b => String.compare a b = Lt)
        ["10.0.0.5"; "10.0.0.6"]
      /\ NoDup ["10.0.0.5"; "10.0.0.6"]).
Proof.
  split.
  - apply (proj1 parsers_return_increasing sample_ports_out).
    vm_compute. reflexivity.
  - apply (proj2 parsers_return_increasing sample_hosts_out).
    vm_compute. reflexivity.
Defined.

(** X14. The list a parser returns is fixed by its set of elements:
    two outputs that show the same open ports (the same hosts up), in
    whatever order and however often, parse to the same list. *)
Theorem parsers_canonical :
  (forall out1 out2 l1 l2,
     parse_ports out1 = Ok l1 -> parse_ports out2 = Ok l2 ->
     (forall n, n ∈ l1 <-> n ∈ l2) -> l1 = l2)
  /\ (forall out1 out2 l1 l2,
        parse_hosts out1 = Ok l1 -> parse_hosts out2 = Ok l2 ->
        (forall h, h ∈ l1 <-> h ∈ l2) -> l1 = l2).
Proof.
  split; intros out1 out2 l1 l2 H1 H2 Hsame.
  - apply (StronglySorted_eq Z.lt Z.lt_irrefl Z.lt_trans);
      [eapply parse_ports_sorted| eapply parse_ports_sorted |]; eassumption.
  - apply (StronglySorted_eq (fun a b => String.compare a b = Lt));
      [ intros x Hx; rewrite string_compare_refl in Hx; discriminate
      | apply string_lt_trans
      | eapply parse_hosts_sorted; eassumption
      | eapply parse_hosts_sorted; eassumption
      | exact Hsame ].
Qed.

Lemma parsers_canonical_witness :
  [22; 80; 443] = [22; 80; 443].
Proof.
  apply (proj1 parsers_canonical sample_ports_out reordered_ports_out).
  - vm_compute. reflexivity.
  - vm_compute. reflexivity.
  - intros n. reflexivity.
Defined.

(** ** One run after another *)




(** X16. One path for both records.  When [PREV_PORTS_FILE] and
    [PREV_HOSTS_FILE] name the same readable file, the host cycle finds
    the port record the port cycle has just written: once the host scan
    has answered and parsed, the run ends with [KeyError] at
    [prev_hosts_data["hosts"]], with no host alert and no host record
    written. *)
Theorem shared_snapshot_path (E : env) (w w1 : world) (cp : list Z)
    (out : string) (ch : list string) :
  ports_cycle E w = (w1, Ok cp) ->
  PREV_PORTS_FILE E = PREV_HOSTS_FILE E ->
  readable_if_present (fs w !! PREV_PORTS_FILE E) = true ->
  subprocess_run E (hosts_cmd E (SUBNET E)) 120 = Ok out ->
  parse_hosts out = Ok ch ->
  main E w
  = (logged (Running (hosts_cmd E (SUBNET E))) w1, Raise KeyError).
Proof.
  intros Hp Hsame Hread Hrun Hparse.
  destruct (ports_cycle_returns E w w1 cp Hp) as (w0 & Hd & Hst & Hw1).
  destruct (ports_detect_frame E w w0 _ Hd) as [Hfs0 _].
  assert (Hfile : fs w1 !! PREV_HOSTS_FILE E
                  = Some (File true
                      (Some (snapshot "ports" (JList (map JInt cp))
                               (time_time E (ticks w0)))))).
  { rewrite <- Hsame, Hw1, put_file_lookup. unfold ticked. simpl.
    rewrite Hfs0, Hread. reflexivity. }
  unfold main. erewrite bind_ok by exact Hp.
  apply bind_raise, hosts_cycle_detect_raises.
  unfold hosts_detect, run_nmap_hosts, bind, logging, lift.
  rewrite Hrun, Hparse, previous_run. cbn [fs]. rewrite Hfile. reflexivity.
Qed.

Lemma shared_snapshot_path_witness :
  main one_path fresh
  = (logged (Running (hosts_cmd one_path (SUBNET one_path)))
       (fst (ports_cycle one_path fresh)), Raise KeyError).
Proof.
  apply (shared_snapshot_path one_path fresh (fst (ports_cycle one_path fresh))
           [22; 80; 443] sample_hosts_out ["10.0.0.5"; "10.0.0.6"]).
  - vm_compute. reflexivity.
  - reflexivity.
  - reflexivity.
  - reflexivity.
  - vm_compute. reflexivity.
Defined.

(** ** When [parse_ports] raises *)

Lemma for_each_raises_iff {A B} (f : A -> result (list B))
    (body : A -> list B -> result (list B)) :
  (forall x s, body x s = (l <~ f x ;; Ok (s ++ l))) ->
  forall xs s,
    (exists e, for_each xs body s = Raise e)
    <-> (exists x e, x ∈ xs /\ f x = Raise e).
Proof.
  intros Hb. induction xs as [|y xs IH]; intros s; cbn [for_each].
  - split.
    + intros [e He]. discriminate.
    + intros (x & e & Hx & _). apply elem_of_nil in Hx. tauto.
  - rewrite Hb. destruct (f y) as [l|e0] eqn:Hf; cbn [rbind].
    + rewrite IH. split.
      * intros (x & e & Hx & He). exists x, e. split; [right; exact Hx|exact He].
      * intros (x & e & Hx & He). apply elem_of_cons in Hx as [->|Hx].
        { rewrite Hf in He. discriminate. }
        exists x, e. auto.
    + split; [|eauto]. intros _. exists y, e0. split; [left|exact Hf].
Qed.

(** X17. [parse_ports] raises exactly when some entry after the first
    [Ports:] of a line has [open] as its second field and a first field
    that [int] does not accept; on every other text it returns. *)
Theorem parse_ports_raises_iff (out : string) :
  (exists e, parse_ports out = Raise e) <->
    exists line after entry seg0 seg1 rest,
      line ∈ Py.splitlines out
      /\ Py.contains "Ports:" line = true
      /\ nth_error (Py.split "Ports:" line) 1 = Some after
      /\ entry ∈ Py.split "," (Py.strip after)
      /\ Py.split "/" (Py.strip entry) = seg0 :: seg1 :: rest
      /\ seg1 = "open"
      /\ Py.int seg0 = None.
Proof.
  unfold parse_ports.
  match goal with
  | |- context [for_each _ ?b _] => set (outer := b)
  end.
  set (inner := fun (p : string) (ports : list Z) =>
    match Py.split "/" (Py.strip p) with
    | seg0 :: seg1 :: _ =>
        if String.eqb seg1 "open" then n <~ int_of seg0 ;; Ok (ports ++ [n])
        else Ok ports
    | _ => Ok ports
    end).
  set (fe := fun (p : string) =>
    match Py.split "/" (Py.strip p) with
    | seg0 :: seg1 :: _ =>
        if String.eqb seg1 "open" then n <~ int_of seg0 ;; Ok [n] else Ok []
    | _ => Ok (@nil Z)
    end).
  set (fl := fun (line : string) =>
    if Py.contains "Ports:" line then
      after <~ index (Py.split "Ports:" line) 1 ;;
      for_each (Py.split "," (Py.strip after)) inner []
    else Ok []).
  assert (Hbe : forall p s, inner p s = (l <~ fe p ;; Ok (s ++ l))).
  { intros p s. unfold inner, fe.
    destruct (Py.split "/" (Py.strip p)) as [|seg0 [|seg1 rest]];
      cbn [rbind]; rewrite ?app_nil_r; try reflexivity.
    destruct (String.eqb seg1 "open"); cbn [rbind];
      rewrite ?app_nil_r; try reflexivity.
    destruct (int_of seg0); reflexivity. }
  assert (Hbl : forall line s, outer line s = (l <~ fl line ;; Ok (s ++ l))).
  { intros line s. unfold outer, fl.
    destruct (Py.contains "Ports:" line); cbn [rbind];
      [|rewrite app_nil_r; reflexivity].
    destruct (index (Py.split "Ports:" line) 1) as [after|e]; cbn [rbind];
      [|reflexivity].
    apply (for_each_append fe inner Hbe). }
  transitivity (exists e, for_each (Py.splitlines out) outer [] = Raise e).
  { split; intros [e He].
    - destruct (for_each (Py.splitlines out) outer []) as [l|e'];
        [discriminate|eauto].
    - exists e. rewrite He. reflexivity. }
  rewrite (for_each_raises_iff fl outer Hbl). split.
  - intros (line & e & Hline & Hfl). unfold fl in Hfl.
    destruct (Py.contains "Ports:" line) eqn:Hc; [|discriminate].
    destruct (split_contains_index "Ports:" line ltac:(discriminate) Hc)
      as [after Hafter].
    rewrite Hafter in Hfl. cbn [rbind] in Hfl.
    destruct (proj1 (for_each_raises_iff fe inner Hbe _ _) (ex_intro _ e Hfl))
      as (entry & e' & Hentry & Hfe).
    unfold fe in Hfe.
    destruct (Py.split "/" (Py.strip entry)) as [|seg0 [|seg1 rest]] eqn:Hsegs;
      try discriminate.
    destruct (String.eqb seg1 "open") eqn:Hopen; [|discriminate].
    unfold int_of in Hfe. destruct (Py.int seg0) eqn:Hint; [discriminate|].
    apply String.eqb_eq in Hopen. unfold index in Hafter.
    destruct (nth_error (Py.split "Ports:" line) 1) eqn:Hn; [|discriminate].
    injection Hafter as ->.
    exists line, after, entry, seg0, seg1, rest. auto 10.
  - intros (line & after & entry & seg0 & seg1 & rest
            & Hline & Hc & Hafter & Hentry & Hsegs & Hopen & Hint).
    assert (Hin : exists e, for_each (Py.split "," (Py.strip after)) inner []
                            = Raise e).
    { apply (for_each_raises_iff fe inner Hbe). exists entry, ValueError.
      split; [exact Hentry|]. unfold fe. rewrite Hsegs. subst seg1.
      rewrite String.eqb_refl. unfold int_of. rewrite Hint. reflexivity. }
    destruct Hin as [e He]. exists line, e. split; [exact Hline|].
    unfold fl, index. rewrite Hc, Hafter. exact He.
Qed.

Lemma parse_ports_raises_iff_witness :
  exists e, parse_ports nonnumeric_ports_out = Raise e.
Proof.
  apply (proj2 (parse_ports_raises_iff nonnumeric_ports_out)).
  exists nonnumeric_ports_out, " http/open/tcp//http///",
    "http/open/tcp//http///", "http", "open", ["tcp"; ""; "http"; ""; ""; ""].
  split; [apply list_elem_of_In; vm_compute; auto|].
  split; [vm_compute; reflexivity|].
  split; [vm_compute; reflexivity|].
  split; [apply list_elem_of_In; vm_compute; auto|].
  split; [vm_compute; reflexivity|].
  split; reflexivity.
Defined.

(** ** The record a cycle leaves for the next *)

(** X18. What a cycle persists is what the next cycle loads as its
    previous list: after a cycle that returned its current list, with
    the file readable, [previous] yields exactly that list. *)
Theorem cycle_record_read_back :
  (forall (E : env) (w w1 : world) (cur : list Z),
     ports_cycle E w = (w1, Ok cur) ->
     readable_if_present (fs w !! PREV_PORTS_FILE E) = true ->
     previous (PREV_PORTS_FILE E) "ports" w1
     = (w1, Ok (JList (map JInt cur))))
  /\ (forall (E : env) (w w1 : world) (cur : list string),
        hosts_cycle E w = (w1, Ok cur) ->
        readable_if_present (fs w !! PREV_HOSTS_FILE E) = true ->
        previous (PREV_HOSTS_FILE E) "hosts" w1
        = (w1, Ok (JList (map JStr cur)))).
Proof.
  split; intros E w w1 cur Hc Hread.
  - destruct (ports_cycle_returns E w w1 cur Hc) as (w0 & Hd & _ & Hw1).
    destruct (ports_detect_frame E w w0 _ Hd) as [Hfs _].
    rewrite previous_run. f_equal. rewrite Hw1 at 1. rewrite put_file_lookup.
    unfold ticked. simpl. rewrite Hfs, Hread. reflexivity.
  - destruct (hosts_cycle_returns E w w1 cur Hc) as (w0 & Hd & _ & Hw1).
    destruct (hosts_detect_frame E w w0 _ Hd) as [Hfs _].
    rewrite previous_run. f_equal. rewrite Hw1 at 1. rewrite put_file_lookup.
    unfold ticked. simpl. rewrite Hfs, Hread. reflexivity.
Qed.

Lemma cycle_record_read_back_witness :
  previous "prev_ports.json" "ports" (fst (ports_cycle lab fresh))
  = (fst (ports_cycle lab fresh), Ok (JList [JInt 22; JInt 80; JInt 443])).
Proof.
  apply (proj1 cycle_record_read_back lab fresh (fst (ports_cycle lab fresh))
           [22; 80; 443]).
  - vm_compute. reflexivity.
  - reflexivity.
Defined.
